(** * rad-claude: confidence scoring and ranking, verified against the code

    A shallow embedding of the recommendation engine of the rad-claude MCP
    server:

    - [tools/suggest-agent.ts]      : [AGENTS], [matchAgent],
                                      [generateReasoning], [suggestAgent];
    - [tools/get-skill-resources.ts]: [extractTopic], [calculateRelevance],
                                      [discoverResources], [getSkillResources];
    - [tools/get-relevant-skills.ts]: [getRelevantSkills];
    - [services/skill-discovery.ts] : [parseFrontmatter], [extractKeywords],
                                      [extractFilePatterns], [discoverSkills],
                                      [discoverSkillsCached] and its cache;
    - [services/session-tracker.ts],
      [tools/update-session-tracker.ts]: checkpoint status and updates;
    - [index.ts]                    : [sanitizeErrorMessage].

    JavaScript strings are modelled by [string], one [ascii] per code unit:
    the strings whose code units are all below 256 (ISO Latin-1 text).  On
    these, [toLowerCase] works unit by unit and folds [A]-[Z] and
    U+00C0-U+00DE (U+00D7 apart), and [trim] and the class [\s] strip TAB,
    LF, VT, FF, CR, SPACE and U+00A0.  Numbers are [Z].  The host (node's
    [fs] and [path], Bun's files and globs, js-yaml) is a record of
    functions passed explicitly. *)

From Stdlib Require Import ZArith List String Ascii Bool Lia.
From Stdlib Require Import Sorting.Sorted Sorting.Permutation.
From Stdlib Require Import QArith Qround.
From Stdlib Require Import DecimalString.
Import ListNotations.

Open Scope string_scope.
Open Scope Z_scope.

(* ================================================================== *)
(** ** JavaScript strings *)

Module Js.

(** The code units below 256 that [toLowerCase] changes: [A]-[Z] and
    U+00C0-U+00DE without the multiplication sign U+00D7. *)
Definition isUpper (c : ascii) : bool :=
  let n := nat_of_ascii c in
  (Nat.leb 65 n && Nat.leb n 90
   || Nat.leb 192 n && Nat.leb n 222 && negb (Nat.eqb n 215))%bool.

Definition lowerChar (c : ascii) : ascii :=
  if isUpper c then ascii_of_nat (nat_of_ascii c + 32) else c.

(** [String.prototype.toLowerCase]. *)
Fixpoint toLowerCase (s : string) : string :=
  match s with
  | EmptyString => EmptyString
  | String c s' => String (lowerChar c) (toLowerCase s')
  end.

(** [String.prototype.startsWith]. *)
Fixpoint startsWith (s p : string) : bool :=
  match p, s with
  | EmptyString, _ => true
  | String _ _, EmptyString => false
  | String a p', String b s' => (Ascii.eqb a b && startsWith s' p')%bool
  end.

(** [String.prototype.includes]: [sub] occurs in [s] at some offset. *)
Fixpoint includes (s sub : string) : bool :=
  (startsWith s sub ||
   match s with
   | EmptyString => false
   | String _ s' => includes s' sub
   end)%bool.

(** [String.prototype.endsWith]. *)
Fixpoint endsWith (s p : string) : bool :=
  (String.eqb s p ||
   match s with
   | EmptyString => false
   | String _ s' => endsWith s' p
   end)%bool.

(** White space in the sense of [trim] and of [\s], below 256: TAB, LF,
    VT, FF, CR, SPACE and the no-break space U+00A0. *)
Definition isWhiteSpace (c : ascii) : bool :=
  let n := nat_of_ascii c in
  (Nat.leb 9 n && Nat.leb n 13 || Nat.eqb n 32 || Nat.eqb n 160)%bool.

Fixpoint trimStart (s : string) : string :=
  match s with
  | EmptyString => EmptyString
  | String c s' => if isWhiteSpace c then trimStart s' else s
  end.

Fixpoint trimEnd (s : string) : string :=
  match s with
  | EmptyString => EmptyString
  | String c s' =>
      match trimEnd s' with
      | EmptyString => if isWhiteSpace c then EmptyString
                       else String c EmptyString
      | r => String c r
      end
  end.

(** [String.prototype.trim]. *)
Definition trim (s : string) : string := trimEnd (trimStart s).

(** [s.length] as a JavaScript number. *)
Definition len (s : string) : Z := Z.of_nat (String.length s).

(** [Array.prototype.join]. *)
Definition join (sep : string) (l : list string) : string :=
  String.concat sep l.

(** [Array.prototype.includes] on an array of strings. *)
Definition arrayIncludes (l : list string) (s : string) : bool :=
  existsb (String.eqb s) l.

(** [n] copies of the character [c]. *)
Fixpoint repeatChar (c : ascii) (n : nat) : string :=
  match n with
  | O => EmptyString
  | S n' => String c (repeatChar c n')
  end.

(** Values of type [unknown], as they reach a tool handler. *)
#[local] Unset Elimination Schemes.
Inductive Value : Type :=
  | VUndefined
  | VNull
  | VBool (b : bool)
  | VNum (n : Z)
  | VStr (s : string)
  | VArr (items : list Value)
  | VObj (fields : list (string * Value)).
#[local] Set Elimination Schemes.

(** Property read [o.k]; an absent key reads as [undefined]. *)
Fixpoint getField (fields : list (string * Value)) (k : string) : Value :=
  match fields with
  | [] => VUndefined
  | (k', v) :: rest => if String.eqb k' k then v else getField rest k
  end.

(** [Array.prototype.sort] with comparator [cmp].  The sort is stable, so for
    a comparator that orders by a key its result is the one computed by
    insertion: an element stays in front of a later one unless the
    comparator is positive. *)
Section Sort.
Context {A : Type} (cmp : A -> A -> Z).

Fixpoint insertBy (x : A) (l : list A) : list A :=
  match l with
  | [] => [x]
  | y :: l' => if cmp x y <=? 0 then x :: y :: l' else y :: insertBy x l'
  end.

Fixpoint sort (l : list A) : list A :=
  match l with
  | [] => []
  | x :: l' => insertBy x (sort l')
  end.
End Sort.

End Js.

(* ================================================================== *)
(** ** Results and validation issues *)

(** What a failed zod check reports. *)
Inductive ZodIssue : Type :=
  | invalid_type (path : string)
  | too_small (path : string)
  | too_big (path : string).

Inductive Error : Type :=
  | InvalidInput (issue : ZodIssue)
  | SkillNotFound (skillName : string)
  | HostError (what : string)
  | DirectoryNotFound (path : string).

(** [Result<T, Error>] of [types/schemas.ts]: [{ok: true, value}] or
    [{ok: false, error}]. *)
Inductive Result (T : Type) : Type :=
  | Ok (value : T)
  | Err (error : Error).
Arguments Ok {T} value.
Arguments Err {T} error.

Definition ok {T} (r : Result T) : bool :=
  match r with Ok _ => true | Err _ => false end.

(** [z.string().trim().min(1).max(10000)] applied to the field [path]: the
    checks run in the order written, so both length checks see the trimmed
    string. *)
Definition parsePrompt (path : string) (v : Js.Value) : Result string :=
  match v with
  | Js.VStr s =>
      let t := Js.trim s in
      if Js.len t <? 1 then Err (InvalidInput (too_small path))
      else if 10000 <? Js.len t then Err (InvalidInput (too_big path))
      else Ok t
  | _ => Err (InvalidInput (invalid_type path))
  end.

(** [z.string().optional()], with [trimmed] for [z.string().trim().optional()]. *)
Definition parseOptString (trimmed : bool) (path : string) (v : Js.Value)
  : Result (option string) :=
  match v with
  | Js.VUndefined => Ok None
  | Js.VStr s => Ok (Some (if trimmed then Js.trim s else s))
  | _ => Err (InvalidInput (invalid_type path))
  end.

Fixpoint allStrings (items : list Js.Value) : option (list string) :=
  match items with
  | [] => Some []
  | Js.VStr s :: rest =>
      match allStrings rest with
      | Some l => Some (s :: l)
      | None => None
      end
  | _ :: _ => None
  end.

(** [z.array(z.string()).optional()]. *)
Definition parseOptStrings (path : string) (v : Js.Value)
  : Result (option (list string)) :=
  match v with
  | Js.VUndefined => Ok None
  | Js.VArr items =>
      match allStrings items with
      | Some l => Ok (Some l)
      | None => Err (InvalidInput (invalid_type path))
      end
  | _ => Err (InvalidInput (invalid_type path))
  end.

(* ================================================================== *)
(** ** tools/suggest-agent.ts *)

Record AgentMetadata : Type := mkAgent {
  name : string;
  description : string;
  whenToUse : string;
  complexitySignals : list string;
  domainSignals : list string;
  estimatedDuration : string
}.

(** The return value of [matchAgent]. *)
Record AgentMatch : Type := mkMatch {
  confidence : Z;
  matchedSignals : list string;
  reasoning : string
}.

Record AgentRecommendation : Type := mkRec {
  agent : AgentMetadata;
  recConfidence : Z;
  recReasoning : string;
  recMatchedSignals : list string
}.

Definition task_spec_creator : AgentMetadata :=
  mkAgent "task-spec-creator"
    "Creates detailed task specifications for complex features"
    "Multi-step features, architectural changes, tasks >4 hours"
    ["multi-step"; "architecture"; "refactor entire"; "redesign"; "rebuild";
     "major feature"; "complex"; "system"; "build"; "implement new";
     "add feature"]
    ["feature"; "system"; "workflow"; "integration"]
    ">4 hours".

Definition convex_architect : AgentMetadata :=
  mkAgent "convex-architect"
    "Expert in Convex backend implementation with security best practices"
    "Convex backend work, mutations, queries, schemas, database design"
    ["implement"; "create"; "build"; "design"; "refactor"]
    ["convex"; "mutation"; "query"; "action"; "schema"; "database";
     "backend"; "api"; "server"]
    "1-4 hours".

Definition security_auditor : AgentMetadata :=
  mkAgent "security-auditor"
    "Reviews code for security vulnerabilities and best practices"
    "Security reviews, auth implementation, vulnerability assessment"
    ["audit"; "review"; "check"; "verify"; "assess"; "analyze"]
    ["security"; "auth"; "authentication"; "authorization"; "validation";
     "sanitize"; "vulnerability"; "exploit"; "xss"; "sql injection"; "csrf"]
    "1-2 hours".

Definition plan_reviewer : AgentMetadata :=
  mkAgent "plan-reviewer"
    "Reviews task specifications and implementation plans"
    "Reviewing plans, assessing feasibility, catching issues early"
    ["review"; "assess"; "evaluate"; "check"; "validate"]
    ["plan"; "specification"; "task spec"; "design"; "approach"; "strategy"]
    "30 minutes - 1 hour".

Definition AGENTS : list AgentMetadata :=
  [task_spec_creator; convex_architect; security_auditor; plan_reviewer].

(** The [for ... of] loops of [matchAgent]: the signals of [signals] that
    the normalized prompt includes, in order, one entry per listed signal. *)
Definition matchingSignals (normalizedPrompt : string) (signals : list string)
  : list string :=
  filter (Js.includes normalizedPrompt) signals.

Definition generateReasoning (a : AgentMetadata) (matched : list string)
  : string :=
  let complexityMatches :=
    filter (Js.arrayIncludes (complexitySignals a)) matched in
  let domainMatches :=
    filter (Js.arrayIncludes (domainSignals a)) matched in
  let reasons : list string :=
    if String.eqb (name a) "task-spec-creator" then
      List.app
        (if existsb (Js.arrayIncludes
                       ["multi-step"; "architecture"; "complex";
                        "major feature"])
                    complexityMatches
         then ["This appears to be a complex, multi-step task"] else [])
        (List.app
           (if 3 <=? Z.of_nat (List.length matched)
            then ["Estimated as a " ++ estimatedDuration a ++ " task"]
            else [])
           ["task-spec-creator will create a detailed specification with phases, context strategy, and success criteria"])
    else if String.eqb (name a) "convex-architect" then
      List.app
        (if 0 <? Z.of_nat (List.length domainMatches)
         then ["Convex-specific work detected: "
                 ++ Js.join ", " (firstn 3 domainMatches)] else [])
        ["convex-architect specializes in backend implementation with security best practices"]
    else if String.eqb (name a) "security-auditor" then
      List.app
        (if 0 <? Z.of_nat (List.length domainMatches)
         then ["Security concerns: " ++ Js.join ", " (firstn 3 domainMatches)]
         else [])
        ["security-auditor will review for vulnerabilities and recommend mitigations"]
    else if String.eqb (name a) "plan-reviewer" then
      List.app
        (if existsb (Js.arrayIncludes ["plan"; "specification"]) domainMatches
         then ["Plan or specification review requested"] else [])
        ["plan-reviewer will assess feasibility and catch potential issues early"]
    else [] in
  Js.join ". " reasons.

Definition matchAgent (prompt : string) (a : AgentMetadata) : AgentMatch :=
  let normalizedPrompt := Js.toLowerCase prompt in
  let matched :=
    List.app (matchingSignals normalizedPrompt (complexitySignals a))
             (matchingSignals normalizedPrompt (domainSignals a)) in
  if Z.of_nat (List.length matched) =? 0 then mkMatch 0 [] ""
  else
    let baseConfidence := 60 in
    let bonusPerMatch := 10 in
    let conf :=
      Z.min 95 (baseConfidence
                + (Z.of_nat (List.length matched) - 1) * bonusPerMatch) in
    mkMatch conf matched (generateReasoning a matched).

(** [suggestAgentInputSchema]: [z.object({prompt: ...})]. *)
Definition suggestAgentInputSchema (input : Js.Value) : Result string :=
  match input with
  | Js.VObj fields => parsePrompt "prompt" (Js.getField fields "prompt")
  | _ => Err (InvalidInput (invalid_type ""))
  end.

(** The loop of [suggestAgent] over the catalog. *)
Fixpoint collectRecommendations (prompt : string) (agents : list AgentMetadata)
  : list AgentRecommendation :=
  match agents with
  | [] => []
  | a :: rest =>
      let m := matchAgent prompt a in
      if 50 <=? confidence m
      then mkRec a (confidence m) (reasoning m) (matchedSignals m)
           :: collectRecommendations prompt rest
      else collectRecommendations prompt rest
  end.

(** The comparator [(a, b) => b.confidence - a.confidence]. *)
Definition byConfidenceDesc (a b : AgentRecommendation) : Z :=
  recConfidence b - recConfidence a.

Record AgentInfo : Type := mkInfo {
  infoName : string;
  infoDescription : string;
  infoWhenToUse : string;
  infoEstimatedDuration : string
}.

Record OutRecommendation : Type := mkOut {
  outAgent : AgentInfo;
  outConfidence : Z;
  outReasoning : string;
  outMatchedSignals : list string
}.

Record SuggestAgentOutput : Type := mkSuggest {
  recommendations : list OutRecommendation
}.

Definition toOutput (r : AgentRecommendation) : OutRecommendation :=
  mkOut (mkInfo (name (agent r)) (description (agent r))
                (whenToUse (agent r)) (estimatedDuration (agent r)))
        (recConfidence r) (recReasoning r) (recMatchedSignals r).

(** [suggestAgent] after validation. *)
Definition rankAgents (prompt : string) : list AgentRecommendation :=
  Js.sort byConfidenceDesc (collectRecommendations prompt AGENTS).

Definition suggestAgent (input : Js.Value) : Result SuggestAgentOutput :=
  match suggestAgentInputSchema input with
  | Err e => Err e
  | Ok prompt => Ok (mkSuggest (map toOutput (rankAgents prompt)))
  end.

(* ================================================================== *)
(** ** tools/get-skill-resources.ts *)

(** The host: [join] of [node:path] and the three calls of [node:fs] the
    tool makes.  [readdirSync] may throw ([Err]); [statIsFile p] is
    [statSync(p).isFile()], [None] when [statSync] throws. *)
Record Host : Type := mkHost {
  pathJoin : string -> string -> string;
  existsSync : string -> bool;
  readdirSync : string -> Result (list string);
  statIsFile : string -> option bool
}.

Record ResourceFile : Type := mkResource {
  fileName : string;
  filePath : string;
  topic : string;
  skillName : string
}.

Record ResourceRecommendation : Type := mkResRec {
  resource : ResourceFile;
  relevance : Z;
  resReasoning : string
}.

Record GetSkillResourcesInput : Type := mkResInput {
  inSkillName : string;
  inTopic : option string;
  inKeywords : option (list string)
}.

Record GetSkillResourcesOutput : Type := mkResOutput {
  resRecommendations : list ResourceRecommendation;
  totalResources : Z
}.

(** [getSkillResourcesInputSchema]. *)
Definition getSkillResourcesInputSchema (input : Js.Value)
  : Result GetSkillResourcesInput :=
  match input with
  | Js.VObj fields =>
      match Js.getField fields "skillName" with
      | Js.VStr s =>
          if Js.len (Js.trim s) <? 1
          then Err (InvalidInput (too_small "skillName"))
          else
            match parseOptString true "topic" (Js.getField fields "topic") with
            | Err e => Err e
            | Ok t =>
                match parseOptStrings "keywords"
                        (Js.getField fields "keywords") with
                | Err e => Err e
                | Ok k => Ok (mkResInput (Js.trim s) t k)
                end
            end
      | _ => Err (InvalidInput (invalid_type "skillName"))
      end
  | _ => Err (InvalidInput (invalid_type ""))
  end.

(** [s.replace(/\.md$/, '')]. *)
Definition stripMdExtension (s : string) : string :=
  if Js.endsWith s ".md"
  then String.substring 0 (String.length s - 3) s
  else s.

(** [s.replace(/-/g, ' ')]. *)
Fixpoint dashesToSpaces (s : string) : string :=
  match s with
  | EmptyString => EmptyString
  | String c s' =>
      String (if Ascii.eqb c "-"%char then " "%char else c) (dashesToSpaces s')
  end.

(** The third [replace] of [extractTopic] maps every run of digits to
    itself. *)
Definition extractTopic (fileName : string) : string :=
  dashesToSpaces (stripMdExtension fileName).

Definition dquote : string := String (ascii_of_nat 34) EmptyString.

(** The keyword loop of [calculateRelevance], threading [relevance] and
    [matchedTerms]. *)
Fixpoint keywordLoop (normalizedTopic : string) (keywords : list string)
    (acc : Z * list string) : Z * list string :=
  match keywords with
  | [] => acc
  | keyword :: rest =>
      let normalizedKeyword := Js.toLowerCase keyword in
      keywordLoop normalizedTopic rest
        (if Js.includes normalizedTopic normalizedKeyword
         then (fst acc + 10,
               List.app (snd acc) ["keyword: " ++ dquote ++ keyword ++ dquote])
         else acc)
  end.

(** [if (x)] on an optional string: [undefined] and the empty string are
    falsy. *)
Definition truthy (x : option string) : option string :=
  match x with
  | Some EmptyString => None
  | other => other
  end.

Definition calculateRelevance (r : ResourceFile) (queryTopic : option string)
    (keywords : option (list string)) : Z * string :=
  let normalizedTopic := Js.toLowerCase r.(topic) in
  let afterTopic : Z * list string :=
    match truthy queryTopic with
    | Some t =>
        let normalizedSearchTopic := Js.toLowerCase t in
        if Js.includes normalizedTopic normalizedSearchTopic
        then (50 + 40, ["topic: " ++ dquote ++ t ++ dquote])
        else (50, [])
    | None => (50, [])
    end in
  let afterKeywords : Z * list string :=
    match keywords with
    | Some (k :: ks) => keywordLoop normalizedTopic (k :: ks) afterTopic
    | _ => afterTopic
    end in
  let relevance := Z.min 100 (fst afterKeywords) in
  let reasoning :=
    if 0 <? Z.of_nat (List.length (snd afterKeywords))
    then "Matches " ++ Js.join ", " (snd afterKeywords)
    else "General resource for this skill" in
  (relevance, reasoning).

(** The loop of [discoverResources] over the directory entries. *)
Fixpoint scanEntries (h : Host) (resourcesDir skillName : string)
    (entries : list string) : list ResourceFile :=
  match entries with
  | [] => []
  | entry :: rest =>
      let filePath := h.(pathJoin) resourcesDir entry in
      let skip :=
        match h.(statIsFile) filePath with
        | Some isFile => (negb isFile || Js.startsWith entry ".")%bool
        | None => true
        end in
      if skip then scanEntries h resourcesDir skillName rest
      else if negb (Js.endsWith entry ".md")
      then scanEntries h resourcesDir skillName rest
      else mkResource entry filePath (extractTopic entry) skillName
           :: scanEntries h resourcesDir skillName rest
  end.

Definition discoverResources (h : Host) (skillPath skillName : string)
  : Result (list ResourceFile) :=
  let resourcesDir := h.(pathJoin) skillPath "resources" in
  if negb (h.(existsSync) resourcesDir) then Ok []
  else
    match h.(readdirSync) resourcesDir with
    | Err e => Err e
    | Ok entries => Ok (scanEntries h resourcesDir skillName entries)
    end.

(** The comparator [(a, b) => b.relevance - a.relevance]. *)
Definition byRelevanceDesc (a b : ResourceRecommendation) : Z :=
  relevance b - relevance a.

Definition scoreResource (queryTopic : option string)
    (keywords : option (list string)) (r : ResourceFile)
  : ResourceRecommendation :=
  let '(rel, why) := calculateRelevance r queryTopic keywords in
  mkResRec r rel why.

(** [getSkillResources] from the scoring on: map, sort, filter. *)
Definition rankResources (queryTopic : option string)
    (keywords : option (list string)) (resources : list ResourceFile)
  : list ResourceRecommendation :=
  filter (fun r => 40 <? relevance r)
         (Js.sort byRelevanceDesc
                  (map (scoreResource queryTopic keywords) resources)).

Definition getSkillResources (h : Host) (input : Js.Value) (skillsDir : string)
  : Result GetSkillResourcesOutput :=
  match getSkillResourcesInputSchema input with
  | Err e => Err e
  | Ok data =>
      let skillPath := h.(pathJoin) skillsDir data.(inSkillName) in
      if negb (h.(existsSync) skillPath)
      then Err (SkillNotFound data.(inSkillName))
      else
        match discoverResources h skillPath data.(inSkillName) with
        | Err e => Err e
        | Ok resources =>
            Ok (mkResOutput
                  (rankResources data.(inTopic) data.(inKeywords) resources)
                  (Z.of_nat (List.length resources)))
        end
  end.

(* ================================================================== *)
(** ** services/skill-discovery.ts: parsing a SKILL.md *)

(** The line feed, [\n]. *)
Definition LF : ascii := ascii_of_nat 10.

Definition nl : string := String LF EmptyString.

(** The rest of [s] after the prefix [p], if [s] starts with [p]. *)
Fixpoint stripPrefix (p s : string) : option string :=
  match p, s with
  | EmptyString, _ => Some s
  | String _ _, EmptyString => None
  | String a p', String b s' =>
      if Ascii.eqb a b then stripPrefix p' s' else None
  end.

(** The first occurrence of [sep] in [s]: the text before it and the text
    after it.  This is how a lazy [[\s\S]*?] followed by the literal [sep]
    matches. *)
Fixpoint splitAtFirst (sep s : string) : option (string * string) :=
  match stripPrefix sep s with
  | Some rest => Some (EmptyString, rest)
  | None =>
      match s with
      | EmptyString => None
      | String c s' =>
          match splitAtFirst sep s' with
          | Some (before, rest) => Some (String c before, rest)
          | None => None
          end
      end
  end.

(** [content.match(FRONTMATTER_REGEX)], group 1, for
    [/^---\n([\s\S]*?)\n---/]. *)
Definition matchFrontmatter (content : string) : option string :=
  match stripPrefix ("---" ++ nl) content with
  | None => None
  | Some rest =>
      match splitAtFirst (nl ++ "---") rest with
      | Some (captured, _) => Some captured
      | None => None
      end
  end.

(** [content.replace(FRONTMATTER_REMOVE_REGEX, '')] for
    [/^---\n[\s\S]*?\n---\n/]. *)
Definition removeFrontmatter (content : string) : string :=
  match stripPrefix ("---" ++ nl) content with
  | None => content
  | Some rest =>
      match splitAtFirst (nl ++ "---" ++ nl) rest with
      | Some (_, after) => after
      | None => content
      end
  end.

(** A literal of a regular expression with flag [i], given in lower case,
    matched at the start of [s]; below 256 a code unit matches a letter
    exactly when it is that letter in either case. *)
Fixpoint stripPrefixCi (p s : string) : option string :=
  match p, s with
  | EmptyString, _ => Some s
  | String _ _, EmptyString => None
  | String a p', String b s' =>
      if Ascii.eqb a (Js.lowerChar b) then stripPrefixCi p' s' else None
  end.

(** The greedy [[^\n]+] at the start of a string whose first character is
    not a line feed: everything up to the next line feed. *)
Fixpoint lineOf (s : string) : string :=
  match s with
  | EmptyString => EmptyString
  | String c s' => if Ascii.eqb c LF then EmptyString else String c (lineOf s')
  end.

(** [\s*([^\n]+)] at the start of [s], group 1.  The greedy [\s*] takes the
    whole run of white space; if a character follows, the group is the rest
    of that line.  If the run reaches the end of the string, [\s*] gives
    characters back until the group can start, which makes the group the
    last character of the run that is not a line feed. *)
Fixpoint captureKeywords (s : string) : option string :=
  match s with
  | EmptyString => None
  | String c s' =>
      if Js.isWhiteSpace c then
        match captureKeywords s' with
        | Some captured => Some captured
        | None =>
            if Ascii.eqb c LF then None else Some (String c EmptyString)
        end
      else Some (lineOf s)
  end.

(** [/Keywords?:\s*([^\n]+)/i] matched at the start of [s], group 1. *)
Definition matchKeywordsAt (s : string) : option string :=
  match stripPrefixCi "keyword" s with
  | None => None
  | Some r1 =>
      match r1 with
      | EmptyString => None
      | String c r =>
          let afterColon :=
            if Ascii.eqb "s"%char (Js.lowerChar c) then stripPrefix ":" r
            else if Ascii.eqb c ":"%char then Some r
            else None in
          match afterColon with
          | Some r2 => captureKeywords r2
          | None => None
          end
      end
  end.

(** [s.match(KEYWORDS_REGEX)], group 1: the leftmost match. *)
Fixpoint matchKeywords (s : string) : option string :=
  match matchKeywordsAt s with
  | Some captured => Some captured
  | None =>
      match s with
      | EmptyString => None
      | String _ s' => matchKeywords s'
      end
  end.

(** [s.split(sep)] for a one-character separator. *)
Fixpoint split (sep : ascii) (s : string) : list string :=
  match s with
  | EmptyString => [EmptyString]
  | String c s' =>
      if Ascii.eqb c sep then EmptyString :: split sep s'
      else
        match split sep s' with
        | h :: t => String c h :: t
        | [] => [String c EmptyString]
        end
  end.

Definition extractKeywords (content : string) : list string :=
  let contentWithoutFrontmatter := removeFrontmatter content in
  match truthy (matchKeywords contentWithoutFrontmatter) with
  | None => []
  | Some keywordsStr =>
      filter (fun k => 0 <? Js.len k)
             (map (fun k => Js.toLowerCase (Js.trim k))
                  (split ","%char keywordsStr))
  end.

(** Truthiness of a value. *)
Definition jsTruthy (v : Js.Value) : bool :=
  match v with
  | Js.VUndefined | Js.VNull => false
  | Js.VBool b => b
  | Js.VNum n => negb (n =? 0)
  | Js.VStr s => negb (String.eqb s "")
  | Js.VArr _ | Js.VObj _ => true
  end.

(** [v.k] for one of the keys [triggers], [files], [include] on a value that
    is neither [null] nor [undefined]: only an object can carry it. *)
Definition getProp (v : Js.Value) (k : string) : Js.Value :=
  match v with
  | Js.VObj fields => Js.getField fields k
  | _ => Js.VUndefined
  end.

(** [include.filter((p) => typeof p === 'string' && p.length > 0)]. *)
Fixpoint nonEmptyStrings (items : list Js.Value) : list string :=
  match items with
  | [] => []
  | Js.VStr s :: rest =>
      if 0 <? Js.len s then s :: nonEmptyStrings rest
      else nonEmptyStrings rest
  | _ :: rest => nonEmptyStrings rest
  end.

(** [extractFilePatterns]; reading a property of [null] or [undefined]
    throws, and the [catch] returns the empty list. *)
Definition extractFilePatterns (frontmatter : Js.Value) : list string :=
  match frontmatter with
  | Js.VUndefined | Js.VNull => []
  | _ =>
      let triggers := getProp frontmatter "triggers" in
      if negb (jsTruthy triggers) then []
      else
        let files := getProp triggers "files" in
        if negb (jsTruthy files) then []
        else
          match getProp files "include" with
          | Js.VArr items => nonEmptyStrings items
          | _ => []
          end
  end.

(** What a path names on disk. *)
Inductive NodeKind : Type :=
  | RegularFile
  | Directory
  | Fifo.

(** The host of skill discovery: [resolve] and [join] of [node:path], the
    file system as Bun shows it, [yaml.load] of js-yaml, and
    [skillFrontmatterSchema], which is declared in [types/schemas.ts] and
    not among the sources at hand.  [globScan cwd] is
    [new Bun.Glob('*/SKILL.md').scanSync({cwd})], [fileText p] is
    [Bun.file(p).text()] and [yamlLoad] is [yaml.load]; each is [None] when
    the call throws.  [frontmatterSchema v] is the name and description of
    a frontmatter that passes [skillFrontmatterSchema.safeParse]. *)
Record BunHost : Type := mkBunHost {
  resolvePath : string -> string;
  joinPath : string -> string -> string;
  nodeAt : string -> option NodeKind;
  globScan : string -> option (list string);
  fileText : string -> option string;
  yamlLoad : string -> option Js.Value;
  frontmatterSchema : Js.Value -> option (string * string)
}.

(** [Bun.file(p).exists()]: true for regular files and FIFOs, false for
    directories and for paths that name nothing. *)
Definition bunFileExists (h : BunHost) (p : string) : bool :=
  match nodeAt h p with
  | Some RegularFile | Some Fifo => true
  | Some Directory | None => false
  end.

Inductive FrontmatterError : Type :=
  | NoFrontmatterFound
  | EmptyFrontmatter
  | YamlError.

Definition parseFrontmatter (h : BunHost) (content : string)
  : Js.Value + FrontmatterError :=
  match matchFrontmatter content with
  | None => inr NoFrontmatterFound
  | Some frontmatterContent =>
      if String.eqb frontmatterContent "" then inr EmptyFrontmatter
      else
        match yamlLoad h frontmatterContent with
        | Some parsed => inl parsed
        | None => inr YamlError
        end
  end.

(* ================================================================== *)
(** ** Skills: services/skill-discovery.ts, tools/get-relevant-skills.ts *)

Module Skills.

(** [DiscoveredSkill] as [discoverSkills] builds it. *)
Record DiscoveredSkill : Type := mkSkill {
  name : string;
  description : string;
  keywords : list string;
  filePatterns : list string;
  skillPath : string;
  skillMdPath : string
}.

(** The module variable [cachedSkills]; [None] is [null]. *)
Definition Cache : Type := option (list DiscoveredSkill).

(** What [console.warn] receives from [discoverSkills]. *)
Inductive Warning : Type :=
  | CannotRead (entry : string)
  | InvalidFrontmatter (entry : string) (why : FrontmatterError)
  | ValidationFailed (entry : string).

(** How an [async] function ends: with a returned [Result], or with a
    rejected promise when an exception escapes. *)
Inductive Completion (T : Type) : Type :=
  | Returned (r : Result T)
  | Rejected.
Arguments Returned {T} r.
Arguments Rejected {T}.

(** The loop of [discoverSkills] over the files the glob found: the skills
    pushed and the warnings written, both in order. *)
Fixpoint scanSkills (h : BunHost) (resolvedSkillsDir : string)
    (skillFiles : list string) : list DiscoveredSkill * list Warning :=
  match skillFiles with
  | [] => ([], [])
  | skillMdRelative :: rest =>
      let later := scanSkills h resolvedSkillsDir rest in
      let skillMdPath := joinPath h resolvedSkillsDir skillMdRelative in
      let entry := hd EmptyString (split "/"%char skillMdRelative) in
      if String.eqb entry "" then later
      else
        let skillPath := joinPath h resolvedSkillsDir entry in
        if Js.startsWith entry "." then later
        else
          match fileText h skillMdPath with
          | None => (fst later, CannotRead entry :: snd later)
          | Some content =>
              match parseFrontmatter h content with
              | inr why => (fst later, InvalidFrontmatter entry why :: snd later)
              | inl frontmatter =>
                  match frontmatterSchema h frontmatter with
                  | None => (fst later, ValidationFailed entry :: snd later)
                  | Some (name', description') =>
                      (mkSkill name' description' (extractKeywords content)
                               (extractFilePatterns frontmatter)
                               skillPath skillMdPath
                       :: fst later,
                       snd later)
                  end
              end
          end
  end.

(** [discoverSkills]: the existence check on the resolved path, then the
    scan; an exception of the glob scan is not caught. *)
Definition discoverSkills (h : BunHost) (skillsDir : string)
  : Completion (list DiscoveredSkill) * list Warning :=
  let resolvedSkillsDir := resolvePath h skillsDir in
  if negb (bunFileExists h resolvedSkillsDir)
  then (Returned (Err (DirectoryNotFound resolvedSkillsDir)), [])
  else
    match globScan h resolvedSkillsDir with
    | None => (Rejected, [])
    | Some skillFiles =>
        let found := scanSkills h resolvedSkillsDir skillFiles in
        (Returned (Ok (fst found)), snd found)
    end.

(** The end of [discoverSkillsCached], run when the awaited
    [discoverSkills] has settled: [if (result.ok) cachedSkills =
    result.value], on the cache as it is at that moment. *)
Definition cacheStore (result : Completion (list DiscoveredSkill))
    (cachedSkills : Cache) : Cache :=
  match result with
  | Returned (Ok skills) => Some skills
  | _ => cachedSkills
  end.

(** [discoverSkillsCached] for a call that no other call overlaps: the
    cache is read, and if it is empty [discoverSkills] runs and
    [cacheStore] sees the cache as the call found it. *)
Definition discoverSkillsCached (h : BunHost) (skillsDir : string)
    (cachedSkills : Cache)
  : Completion (list DiscoveredSkill) * Cache * list Warning :=
  match cachedSkills with
  | Some skills => (Returned (Ok skills), cachedSkills, [])
  | None =>
      let run := discoverSkills h skillsDir in
      (fst run, cacheStore (fst run) cachedSkills, snd run)
  end.

Record MatchContext : Type := mkContext {
  openFiles : option (list string);
  workingDirectory : option string
}.

Record GetRelevantSkillsInput : Type := mkInput {
  inPrompt : string;
  inContext : MatchContext
}.

(** Modelled from the spec: [getRelevantSkillsInputSchema] lives in
    [types/schemas.ts], which is not part of the sources at hand; its shape
    is the one [index.ts] registers for the tool: a prompt that is a
    trimmed string of 1 to 10000 characters, optional [openFiles] (array of
    strings) and optional [workingDirectory] (string). *)
Definition getRelevantSkillsInputSchema (input : Js.Value)
  : Result GetRelevantSkillsInput :=
  match input with
  | Js.VObj fields =>
      match parsePrompt "prompt" (Js.getField fields "prompt") with
      | Err e => Err e
      | Ok p =>
          match parseOptStrings "openFiles"
                  (Js.getField fields "openFiles") with
          | Err e => Err e
          | Ok files =>
              match parseOptString false "workingDirectory"
                      (Js.getField fields "workingDirectory") with
              | Err e => Err e
              | Ok wd => Ok (mkInput p (mkContext files wd))
              end
          end
      end
  | _ => Err (InvalidInput (invalid_type ""))
  end.

Inductive Category : Type := Keywords | Files | Content.

(** Per-category evidence: the matched signals and whether the category had
    any input to check against. *)
Record SignalHitSet : Type := mkHits {
  hits : list string;
  applicable : bool
}.

Record Details : Type := mkDetails {
  keywordScore : Q;
  fileScore : Q;
  contentScore : Q
}.

Record SkillMatch : Type := mkSkillMatch {
  skill : DiscoveredSkill;
  confidence : Z;
  details : Details;
  matchedSignals : list string
}.

Record GetRelevantSkillsOutput : Type := mkOutput {
  matches : list SkillMatch;
  totalSkillsScanned : Z
}.

(** Nominal weights: keywords 40, files 30, content 30. *)
Definition nominalWeight (c : Category) : Q :=
  match c with
  | Keywords => inject_Z 40
  | Files => inject_Z 30
  | Content => inject_Z 30
  end.

(** A candidate signal matches when it is not empty and occurs in the
    lower-cased text, case being ignored on both sides. *)
Definition signalMatches (text signal : string) : bool :=
  (negb (String.eqb signal "")
   && Js.includes (Js.toLowerCase text) (Js.toLowerCase signal))%bool.

(** [Math.round]: to the nearest integer, halves upwards. *)
Definition round (x : Q) : Z := Qfloor (x + (1 # 2)).

Definition clamp (lo hi x : Z) : Z := Z.max lo (Z.min hi x).

Section Scorer.
(** Modelled from the spec: [services/pattern-matcher.ts] and
    [services/confidence-scorer.ts] ([matchPromptToSkills] and the scorer
    behind it) are not part of the sources at hand.  The spec fixes the
    three extractors, the weights 40/30/30, the redistribution over the
    applicable categories, rounding, clamping, exclusion of zero scores
    and the stable descending order; it leaves open the glob matcher, the
    content vocabulary of a skill and the per-category percentage, which
    are the three variables below. *)
Variable globMatch : string -> string -> bool.
Variable contentSignals : DiscoveredSkill -> list string.
Variable percentage : Category -> DiscoveredSkill -> list string -> Q.

(** The signals a skill declares in a category. *)
Definition declared (c : Category) (s : DiscoveredSkill) : list string :=
  match c with
  | Keywords => keywords s
  | Files => filePatterns s
  | Content => contentSignals s
  end.

(** Modelled from the spec: the three signal extractors of section 4.1.
    Keywords and content scan the prompt and always apply; files apply
    only when at least one open file is supplied, and a path is a hit when
    it matches one of the skill's globs. *)
Definition extract (c : Category) (prompt : string) (ctx : MatchContext)
    (s : DiscoveredSkill) : SignalHitSet :=
  match c with
  | Keywords => mkHits (filter (signalMatches prompt) (keywords s)) true
  | Content => mkHits (filter (signalMatches prompt) (contentSignals s)) true
  | Files =>
      match openFiles ctx with
      | Some (f :: fs) =>
          mkHits (filter (fun path => existsb (fun g => globMatch g path)
                                              (filePatterns s))
                         (f :: fs)) true
      | _ => mkHits [] false
      end
  end.

Definition categories : list Category := [Keywords; Files; Content].

Definition isApplicable (prompt : string) (ctx : MatchContext)
    (s : DiscoveredSkill) (c : Category) : bool :=
  applicable (extract c prompt ctx s).

(** Sum of the nominal weights of the applicable categories. *)
Definition applicableWeight (prompt : string) (ctx : MatchContext)
    (s : DiscoveredSkill) : Q :=
  fold_right (fun c acc => nominalWeight c + acc)%Q (inject_Z 0)
             (filter (isApplicable prompt ctx s) categories).

(** Modelled from the spec: the weight of a category after redistribution,
    nominal weight over the sum of the applicable nominal weights; a
    category that does not apply weighs nothing. *)
Definition normalizedWeight (prompt : string) (ctx : MatchContext)
    (s : DiscoveredSkill) (c : Category) : Q :=
  if isApplicable prompt ctx s c
  then (nominalWeight c / applicableWeight prompt ctx s)%Q
  else inject_Z 0.

Definition categoryScore (prompt : string) (ctx : MatchContext)
    (s : DiscoveredSkill) (c : Category) : Q :=
  if isApplicable prompt ctx s c
  then percentage c s (hits (extract c prompt ctx s))
  else inject_Z 0.

(** Modelled from the spec: the confidence of one skill, the weighted sum
    of the per-category percentages, rounded and clamped to 0..100. *)
Definition scoreSkill (prompt : string) (ctx : MatchContext)
    (s : DiscoveredSkill) : SkillMatch :=
  let weighted :=
    fold_right
      (fun c acc => normalizedWeight prompt ctx s c
                    * categoryScore prompt ctx s c + acc)%Q
      (inject_Z 0) categories in
  mkSkillMatch s (clamp 0 100 (round weighted))
    (mkDetails (categoryScore prompt ctx s Keywords)
               (categoryScore prompt ctx s Files)
               (categoryScore prompt ctx s Content))
    (List.app (hits (extract Keywords prompt ctx s))
       (List.app (hits (extract Files prompt ctx s))
                 (hits (extract Content prompt ctx s)))).

Definition byConfidenceDesc (a b : SkillMatch) : Z :=
  confidence b - confidence a.

(** Modelled from the spec: [matchPromptToSkills] scores every skill of
    the catalog, drops the skills of confidence zero and sorts the rest by
    descending confidence, ties in catalog order. *)
Definition matchPromptToSkills (prompt : string)
    (skills : list DiscoveredSkill) (ctx : MatchContext)
  : list SkillMatch :=
  Js.sort byConfidenceDesc
    (filter (fun m => 0 <? confidence m) (map (scoreSkill prompt ctx) skills)).

(** [getRelevantSkills]: the [await]ed discovery is the one place where
    the cache may change and warnings may be written. *)
Definition getRelevantSkills (h : BunHost) (input : Js.Value)
    (skillsDir : string) (cachedSkills : Cache)
  : Completion GetRelevantSkillsOutput * Cache * list Warning :=
  match getRelevantSkillsInputSchema input with
  | Err e => (Returned (Err e), cachedSkills, [])
  | Ok data =>
      match discoverSkillsCached h skillsDir cachedSkills with
      | (Rejected, cache', warnings) => (Rejected, cache', warnings)
      | (Returned (Err e), cache', warnings) =>
          (Returned (Err e), cache', warnings)
      | (Returned (Ok skills), cache', warnings) =>
          (Returned
             (Ok (mkOutput
                    (matchPromptToSkills data.(inPrompt) skills
                                         data.(inContext))
                    (Z.of_nat (List.length skills)))),
           cache', warnings)
      end
  end.
End Scorer.

(** One admissible percentage policy: the share of the declared signals
    that were hit, in percent. *)
Definition shareOfDeclared (contentSignals : DiscoveredSkill -> list string)
    (c : Category) (s : DiscoveredSkill) (matched : list string) : Q :=
  match declared contentSignals c s with
  | [] => inject_Z 0
  | d :: ds =>
      (inject_Z (100 * Z.of_nat (List.length matched))
       / inject_Z (Z.of_nat (List.length (d :: ds))))%Q
  end.

End Skills.

(* ================================================================== *)
(** ** index.ts: error messages shown to the client *)

(** An [Error] object, as far as [sanitizeErrorMessage] looks at it. *)
Record JsError : Type := mkError {
  ctorName : string;
  errMessage : string
}.

(** [new Error(`Skill not found: ${skillName}`)] of [getSkillResources]. *)
Definition skillNotFoundError (skillName : string) : JsError :=
  mkError "Error" ("Skill not found: " ++ skillName).

(** [new Error(`Invalid input: ${validation.error.message}`)] of the tool
    handlers, [zodMessage] being the text zod produced. *)
Definition invalidInputError (zodMessage : string) : JsError :=
  mkError "Error" ("Invalid input: " ++ zodMessage).

(** The record [sanitizeErrorMessage] writes to the error console. *)
Record ErrorLog : Type := mkErrorLog {
  logTool : string;
  logError : string;
  logType : string;
  logTimestamp : string
}.

(** [sanitizeErrorMessage]: the logged record and the returned text; [now]
    is [new Date().toISOString()]. *)
Definition sanitizeErrorMessage (toolName : string) (error : JsError)
    (now : string) : ErrorLog * string :=
  (mkErrorLog toolName (errMessage error) (ctorName error) now,
   if String.eqb (ctorName error) "SecurityError"
   then "Access denied: Invalid path or permission error"
   else if (Js.includes (errMessage error) "not found"
            || Js.includes (errMessage error) "does not exist")%bool
   then toolName ++ " failed: Resource not found"
   else if Js.includes (errMessage error) "Invalid input"
   then toolName ++ " failed: Invalid input format"
   else toolName ++ " failed: Please check your input and try again").

(* ================================================================== *)
(** ** services/session-tracker.ts, tools/update-session-tracker.ts *)

Module Session.

Inductive CheckpointStatus : Type :=
  | StatusNone
  | Suggested
  | Recommended
  | Urgent.

Record SessionTracker : Type := mkTracker {
  sessionStart : string;
  lastCheckpoint : string;
  currentPhase : string;
  completedSinceCheckpoint : list string;
  inProgress : string;
  filesModified : list string;
  commitsSinceCheckpoint : Z;
  checkpointStatus : CheckpointStatus;
  lastCommit : option string
}.

(** One entry of [CHECKPOINT_THRESHOLDS]: its fields [commits] and
    [filesModified]. *)
Record Threshold : Type := mkThreshold {
  minCommits : Z;
  minFilesModified : Z
}.

Record Thresholds : Type := mkThresholds {
  URGENT : Threshold;
  RECOMMENDED : Threshold;
  SUGGESTED : Threshold
}.

(** The validated input of [updateSessionTracker]. *)
Record UpdateInput : Type := mkUpdate {
  upCurrentPhase : option string;
  upCompletedWork : option string;
  upInProgress : option string;
  upFilesModified : option (list string);
  upCommitMade : option bool;
  upLastCommit : option string
}.

Record Stats : Type := mkStats {
  sessionDuration : string;
  statCommits : Z;
  statFilesModified : Z;
  statWorkCompleted : Z
}.

Record ShouldCreateCheckpointOutput : Type := mkCheckpoint {
  status : CheckpointStatus;
  shouldSave : bool;
  checkpointReasoning : string;
  stats : Stats
}.

(** [String(n)] for an integer. *)
Definition numberToString (n : Z) : string :=
  NilZero.string_of_int (Z.to_int n).

(** Severity of a status, [none] lowest. *)
Definition rank (s : CheckpointStatus) : Z :=
  match s with
  | StatusNone => 0
  | Suggested => 1
  | Recommended => 2
  | Urgent => 3
  end.

Section Tracker.
(** [CHECKPOINT_THRESHOLDS] is declared in [types/session-schemas.ts], which
    is not among the sources at hand; the functions below take it as a
    parameter. *)
Variable CHECKPOINT_THRESHOLDS : Thresholds.

(** One test of [calculateCheckpointStatus]:
    [commitsSinceCheckpoint >= t.commits ||
     filesModified.length >= t.filesModified]. *)
Definition reaches (t : Threshold) (tracker : SessionTracker) : bool :=
  ((minCommits t <=? commitsSinceCheckpoint tracker)
   || (minFilesModified t <=? Z.of_nat (List.length (filesModified tracker))))%bool.

Definition calculateCheckpointStatus (tracker : SessionTracker)
  : CheckpointStatus :=
  if reaches (URGENT CHECKPOINT_THRESHOLDS) tracker then Urgent
  else if reaches (RECOMMENDED CHECKPOINT_THRESHOLDS) tracker then Recommended
  else if (reaches (SUGGESTED CHECKPOINT_THRESHOLDS) tracker
           || (0 <? Z.of_nat (List.length (completedSinceCheckpoint tracker))))%bool
  then Suggested
  else StatusNone.

Definition generateCheckpointReasoning (s : CheckpointStatus)
    (tracker : SessionTracker) : string :=
  let reasons : list string :=
    List.app
      (if 0 <? commitsSinceCheckpoint tracker
       then [numberToString (commitsSinceCheckpoint tracker)
               ++ " commit(s) made"] else [])
      (List.app
         (if 0 <? Z.of_nat (List.length (filesModified tracker))
          then [numberToString (Z.of_nat (List.length (filesModified tracker)))
                  ++ " file(s) modified"] else [])
         (if 0 <? Z.of_nat (List.length (completedSinceCheckpoint tracker))
          then [numberToString
                  (Z.of_nat (List.length (completedSinceCheckpoint tracker)))
                  ++ " milestone(s) completed"] else [])) in
  let reasonText := Js.join ", " reasons in
  match s with
  | Urgent =>
      "URGENT: " ++ reasonText ++ ". Save now to preserve significant work."
  | Recommended =>
      "Recommended: " ++ reasonText ++ ". Good checkpoint for context save."
  | Suggested =>
      "Suggested: " ++ reasonText
        ++ ". Consider saving at this natural breakpoint."
  | StatusNone => "No checkpoint needed yet. Continue working."
  end.

(** [calculateSessionDuration], on the time values (milliseconds) of
    [new Date(startTime)] and [new Date()]. *)
Definition calculateSessionDuration (startMs nowMs : Z) : string :=
  let diffMs := nowMs - startMs in
  let hours := diffMs / (1000 * 60 * 60) in
  let minutes := Z.rem diffMs (1000 * 60 * 60) / (1000 * 60) in
  if 0 <? hours
  then numberToString hours ++ "h " ++ numberToString minutes ++ "m"
  else numberToString minutes ++ "m".

Definition shouldCreateCheckpoint (tracker : SessionTracker)
    (startMs nowMs : Z) : ShouldCreateCheckpointOutput :=
  let s := calculateCheckpointStatus tracker in
  let save :=
    match s with
    | Recommended | Urgent => true
    | _ => false
    end in
  mkCheckpoint s save (generateCheckpointReasoning s tracker)
    (mkStats (calculateSessionDuration startMs nowMs)
             (commitsSinceCheckpoint tracker)
             (Z.of_nat (List.length (filesModified tracker)))
             (Z.of_nat (List.length (completedSinceCheckpoint tracker)))).

(** [resetCheckpoint]; [now] is [new Date().toISOString()]. *)
Definition resetCheckpoint (tracker : SessionTracker) (now : string)
  : SessionTracker :=
  mkTracker (sessionStart tracker) now (currentPhase tracker) []
            (inProgress tracker) [] 0 StatusNone (lastCommit tracker).

(** The object spreads of [updateSessionTracker], one field replaced at a
    time: [{ ...tracker, currentPhase }] and so on. *)
Definition withCurrentPhase (t : SessionTracker) (phase : string)
  : SessionTracker :=
  mkTracker (sessionStart t) (lastCheckpoint t) phase
            (completedSinceCheckpoint t) (inProgress t) (filesModified t)
            (commitsSinceCheckpoint t) (checkpointStatus t) (lastCommit t).

Definition withCompleted (t : SessionTracker) (completed : list string)
  : SessionTracker :=
  mkTracker (sessionStart t) (lastCheckpoint t) (currentPhase t) completed
            (inProgress t) (filesModified t) (commitsSinceCheckpoint t)
            (checkpointStatus t) (lastCommit t).

Definition withInProgress (t : SessionTracker) (task : string)
  : SessionTracker :=
  mkTracker (sessionStart t) (lastCheckpoint t) (currentPhase t)
            (completedSinceCheckpoint t) task (filesModified t)
            (commitsSinceCheckpoint t) (checkpointStatus t) (lastCommit t).

Definition withFilesModified (t : SessionTracker) (files : list string)
  : SessionTracker :=
  mkTracker (sessionStart t) (lastCheckpoint t) (currentPhase t)
            (completedSinceCheckpoint t) (inProgress t) files
            (commitsSinceCheckpoint t) (checkpointStatus t) (lastCommit t).

Definition withCommits (t : SessionTracker) (n : Z) : SessionTracker :=
  mkTracker (sessionStart t) (lastCheckpoint t) (currentPhase t)
            (completedSinceCheckpoint t) (inProgress t) (filesModified t)
            n (checkpointStatus t) (lastCommit t).

Definition withLastCommit (t : SessionTracker) (hash : string)
  : SessionTracker :=
  mkTracker (sessionStart t) (lastCheckpoint t) (currentPhase t)
            (completedSinceCheckpoint t) (inProgress t) (filesModified t)
            (commitsSinceCheckpoint t) (checkpointStatus t) (Some hash).

Definition withCheckpointStatus (t : SessionTracker) (s : CheckpointStatus)
  : SessionTracker :=
  mkTracker (sessionStart t) (lastCheckpoint t) (currentPhase t)
            (completedSinceCheckpoint t) (inProgress t) (filesModified t)
            (commitsSinceCheckpoint t) s (lastCommit t).

(** The field updates of [updateSessionTracker], between loading and
    saving the tracker. *)
Definition applyUpdate (data : UpdateInput) (tracker : SessionTracker)
  : SessionTracker :=
  let t1 :=
    match truthy (upCurrentPhase data) with
    | Some phase => withCurrentPhase tracker phase
    | None => tracker
    end in
  let t2 :=
    match truthy (upCompletedWork data) with
    | Some work =>
        withCompleted t1 (List.app (completedSinceCheckpoint t1) [work])
    | None => t1
    end in
  let t3 :=
    match truthy (upInProgress data) with
    | Some task => withInProgress t2 task
    | None => t2
    end in
  let t4 :=
    match upFilesModified data with
    | Some (f :: fs) =>
        let newFiles :=
          filter (fun x => negb (Js.arrayIncludes (filesModified t3) x))
                 (f :: fs) in
        withFilesModified t3 (List.app (filesModified t3) newFiles)
    | _ => t3
    end in
  let t5 :=
    match upCommitMade data with
    | Some true => withCommits t4 (commitsSinceCheckpoint t4 + 1)
    | _ => t4
    end in
  let t6 :=
    match truthy (upLastCommit data) with
    | Some hash => withLastCommit t5 hash
    | None => t5
    end in
  withCheckpointStatus t6 (calculateCheckpointStatus t6).

(** [updateSessionTracker], given the outcome of validation, the outcome of
    [loadSessionTracker] and the effect of [saveSessionTracker]; the second
    component is the tracker handed to [saveSessionTracker], if any. *)
Definition updateSessionTracker (validation : Result UpdateInput)
    (loadResult : Result SessionTracker)
    (save : SessionTracker -> Result unit)
  : Result (string * CheckpointStatus) * option SessionTracker :=
  match validation with
  | Err e => (Err e, None)
  | Ok data =>
      match loadResult with
      | Err e => (Err e, None)
      | Ok tracker =>
          let tracker' := applyUpdate data tracker in
          match save tracker' with
          | Err e => (Err e, Some tracker')
          | Ok _ =>
              (Ok ("Session tracker updated successfully",
                   checkpointStatus tracker'),
               Some tracker')
          end
      end
  end.
End Tracker.

End Session.

(* ================================================================== *)
(** * Vocabulary of the properties and sample inputs *)

(** Descending order of the keys. *)
Definition descending {A : Type} (key : A -> Z) : list A -> Prop :=
  StronglySorted (fun a b => key b <= key a).

(** [needle] occurs in [text], case being ignored on both sides. *)
Definition ciSubstring (text needle : string) : bool :=
  Js.includes (Js.toLowerCase text) (Js.toLowerCase needle).

(** Matched entries of the two signal lists, a signal counted once for each
    list that carries it. *)
Definition matchedEntries (prompt : string) (a : AgentMetadata) : nat :=
  (List.length (filter (ciSubstring prompt) (complexitySignals a))
   + List.length (filter (ciSubstring prompt) (domainSignals a)))%nat.

(** Distinct matched signals of the two lists taken together. *)
Definition distinctMatched (prompt : string) (a : AgentMetadata) : nat :=
  List.length
    (nodup string_dec
       (filter (ciSubstring prompt)
               (List.app (complexitySignals a) (domainSignals a)))).

(** 0 for no match, else [min(95, 60 + 10 * (d - 1))]. *)
Definition signalConfidence (d : nat) : Z :=
  if Nat.eqb d 0 then 0 else Z.min 95 (60 + 10 * (Z.of_nat d - 1)).

(** The signals of an agent are stored in lower case. *)
Definition lowerCased (a : AgentMetadata) : Prop :=
  Forall (fun s => Js.toLowerCase s = s)
         (List.app (complexitySignals a) (domainSignals a)).

(** The recommendation the loop of [suggestAgent] pushes for one agent. *)
Definition recommend (prompt : string) (a : AgentMetadata)
  : AgentRecommendation :=
  let m := matchAgent prompt a in
  mkRec a (confidence m) (reasoning m) (matchedSignals m).

Definition promptInput (prompt : string) : Js.Value :=
  Js.VObj [("prompt", Js.VStr prompt)].

Definition auditOutput : SuggestAgentOutput :=
  mkSuggest (map toOutput (rankAgents "audit this")).

Definition reviewOutput : SuggestAgentOutput :=
  mkSuggest (map toOutput (rankAgents "review the plan for the new system")).

Definition tiedOutput : SuggestAgentOutput :=
  mkSuggest (map toOutput (rankAgents "check the design of the api")).

Definition keywordsOf (keywords : option (list string)) : list string :=
  match keywords with
  | Some l => l
  | None => []
  end.

(** The bonus [calculateRelevance] grants for the query topic. *)
Definition topicBonus (resTopic : string) (queryTopic : option string) : Z :=
  match truthy queryTopic with
  | Some t => if ciSubstring resTopic t then 40 else 0
  | None => 0
  end.

(** Relevance as C5 words it: 50, plus 40 when the supplied topic is a
    case-insensitive substring of the resource topic, plus 10 per supplied
    keyword that is one, clamped to 100. *)
Definition statedRelevance (resTopic : string) (queryTopic : option string)
    (keywords : list string) : Z :=
  Z.min 100
    (50
     + match queryTopic with
       | Some t => if ciSubstring resTopic t then 40 else 0
       | None => 0
       end
     + 10 * Z.of_nat (List.length (filter (ciSubstring resTopic) keywords))).

(** Relevance with the topic guarded as the code guards it: the topic bonus
    needs a non-empty topic; the keyword term is as C5 words it. *)
Definition guardedRelevance (resTopic : string) (queryTopic : option string)
    (keywords : list string) : Z :=
  Z.min 100
    (50
     + topicBonus resTopic queryTopic
     + 10 * Z.of_nat (List.length (filter (ciSubstring resTopic) keywords))).

Definition reactResource : ResourceFile :=
  mkResource "react-19-2-features.md"
             "skills/frontend/resources/react-19-2-features.md"
             (extractTopic "react-19-2-features.md") "frontend".

(** A host with one skill directory holding four entries. *)
Definition sampleHost : Host :=
  mkHost (fun a b => a ++ "/" ++ b)
         (fun _ => true)
         (fun _ => Ok ["react-19-2-features.md"; ".hidden.md"; "notes.txt";
                       "forms-guide.md"])
         (fun _ => Some true).

Definition sampleQuery : Js.Value :=
  Js.VObj [("skillName", Js.VStr " frontend ");
           ("topic", Js.VStr "React 19");
           ("keywords", Js.VArr [Js.VStr "guide"])].

Definition sampleResources : list ResourceFile :=
  [mkResource "react-19-2-features.md"
              "skills/frontend/resources/react-19-2-features.md"
              "react 19 2 features" "frontend";
   mkResource "forms-guide.md" "skills/frontend/resources/forms-guide.md"
              "forms guide" "frontend"].

Definition plainQuery : Js.Value :=
  Js.VObj [("skillName", Js.VStr "frontend");
           ("topic", Js.VStr "hooks");
           ("keywords", Js.VArr [Js.VStr "router"; Js.VStr "cache"])].

Definition convexSkill : Skills.DiscoveredSkill :=
  Skills.mkSkill "convex-patterns" "Convex backend patterns"
                 ["convex"; "mutation"] ["convex/**/*.ts"]
                 "skills/convex-patterns" "skills/convex-patterns/SKILL.md".

Definition sampleContent (s : Skills.DiscoveredSkill) : list string :=
  ["webhook"; "http action"].

Definition neverGlob (pattern path : string) : bool := false.

(** The string under the key [prompt], if the input is an object that has
    one. *)
Definition promptOf (input : Js.Value) : option string :=
  match input with
  | Js.VObj fields =>
      match Js.getField fields "prompt" with
      | Js.VStr s => Some s
      | _ => None
      end
  | _ => None
  end.

(** Inputs C7 names, the length being that of the prompt as supplied. *)
Definition rejectedAsStated (input : Js.Value) : Prop :=
  match promptOf input with
  | None => True
  | Some s => Js.trim s = "" \/ 10000 < Js.len s
  end.

(** The same with the length taken after trimming. *)
Definition rejectedAfterTrim (input : Js.Value) : Prop :=
  match promptOf input with
  | None => True
  | Some s => Js.trim s = "" \/ 10000 < Js.len (Js.trim s)
  end.

(** One letter followed by 10000 spaces: 10001 characters. *)
Definition paddedPrompt : string :=
  String "a" (Js.repeatChar " " (Z.to_nat 10000)).

(** No open file was supplied with the call. *)
Definition noOpenFiles (ctx : Skills.MatchContext) : Prop :=
  Skills.openFiles ctx = None \/ Skills.openFiles ctx = Some [].

(** The directory entries [discoverResources] keeps: regular files whose
    name does not start with a dot and ends in [.md]. *)
Definition keepsEntry (h : Host) (resourcesDir entry : string) : bool :=
  match statIsFile h (pathJoin h resourcesDir entry) with
  | Some true =>
      (negb (Js.startsWith entry ".") && Js.endsWith entry ".md")%bool
  | _ => false
  end.

(** A host where every path exists except those ending in [resources]. *)
Definition bareHost : Host :=
  mkHost (fun a b => a ++ "/" ++ b)
         (fun p => negb (Js.endsWith p "resources"))
         (fun _ => Err (HostError "ENOENT"))
         (fun _ => None).

(** A host without any skill directory. *)
Definition emptyHost : Host :=
  mkHost (fun a b => a ++ "/" ++ b)
         (fun _ => false)
         (fun _ => Err (HostError "ENOENT"))
         (fun _ => None).

Definition frontendQuery : Js.Value :=
  Js.VObj [("skillName", Js.VStr "frontend")].

(** Frontmatter with one glob, one empty string and one number under
    [triggers.files.include]. *)
Definition sampleFrontmatter : Js.Value :=
  Js.VObj
    [("name", Js.VStr "convex-patterns");
     ("triggers",
      Js.VObj
        [("files",
          Js.VObj
            [("include",
              Js.VArr [Js.VStr "convex/**/*.ts"; Js.VStr ""; Js.VNum 3])])])].

(** Every threshold asks for at least one commit and one file. *)
Definition positiveThresholds (th : Session.Thresholds) : Prop :=
  0 < Session.minCommits (Session.URGENT th)
  /\ 0 < Session.minFilesModified (Session.URGENT th)
  /\ 0 < Session.minCommits (Session.RECOMMENDED th)
  /\ 0 < Session.minFilesModified (Session.RECOMMENDED th)
  /\ 0 < Session.minCommits (Session.SUGGESTED th)
  /\ 0 < Session.minFilesModified (Session.SUGGESTED th).

(** The thresholds named in the comments of [calculateCheckpointStatus]:
    urgent 5 commits or 20 files, recommended 3 or 10, suggested 2 or 5. *)
Definition commentThresholds : Session.Thresholds :=
  Session.mkThresholds (Session.mkThreshold 5 20)
                       (Session.mkThreshold 3 10)
                       (Session.mkThreshold 2 5).

Definition busyTracker : Session.SessionTracker :=
  Session.mkTracker "2025-01-01T09:00:00.000Z" "2025-01-01T09:00:00.000Z"
                    "Phase 2" ["schema done"] "writing mutations"
                    ["convex/users.ts"; "convex/schema.ts"] 4
                    Session.Recommended (Some "abc1234").

Definition sampleUpdate : Session.UpdateInput :=
  Session.mkUpdate None (Some "mutations done") None
                   (Some ["convex/schema.ts"; "convex/posts.ts"])
                   (Some true) (Some "def5678").

(** The files an update names, none when the field is absent. *)
Definition updateFiles (data : Session.UpdateInput) : list string :=
  match Session.upFilesModified data with
  | Some l => l
  | None => []
  end.

(** A host whose path [skills] names an existing directory that holds
    nothing. *)
Definition emptySkillsHost : BunHost :=
  mkBunHost (fun p => p)
            (fun a b => a ++ "/" ++ b)
            (fun p => if String.eqb p "skills" then Some Directory else None)
            (fun _ => Some [])
            (fun _ => None)
            (fun _ => None)
            (fun _ => None).

(* ================================================================== *)
(** * Properties *)

(** ** Sorting by a descending key *)

Section SortByKey.
Context {A : Type} (key : A -> Z).

Let cmp (a b : A) : Z := key b - key a.

Lemma insertBy_perm (x : A) (l : list A) :
  Permutation (Js.insertBy cmp x l) (x :: l).
Proof.
  induction l as [|y l IH]; simpl.
  - apply Permutation_refl.
  - destruct (cmp x y <=? 0).
    + apply Permutation_refl.
    + eapply perm_trans; [apply perm_skip, IH | apply perm_swap].
Qed.

Lemma sort_perm (l : list A) : Permutation (Js.sort cmp l) l.
Proof.
  induction l as [|x l IH]; simpl.
  - apply perm_nil.
  - eapply perm_trans; [apply insertBy_perm | apply perm_skip, IH].
Qed.

Lemma sort_length (l : list A) :
  List.length (Js.sort cmp l) = List.length l.
Proof. apply Permutation_length, sort_perm. Qed.

Lemma sort_In (x : A) (l : list A) : In x (Js.sort cmp l) <-> In x l.
Proof.
  split; apply Permutation_in;
    [apply sort_perm | apply Permutation_sym, sort_perm].
Qed.

Lemma sort_Forall (P : A -> Prop) (l : list A) :
  Forall P l -> Forall P (Js.sort cmp l).
Proof.
  intros H. eapply Permutation_Forall; [|exact H].
  apply Permutation_sym, sort_perm.
Qed.

Lemma insertBy_descending (x : A) (l : list A) :
  descending key l -> descending key (Js.insertBy cmp x l).
Proof.
  unfold descending.
  induction l as [|y l IH]; intros Hs; simpl.
  - constructor; constructor.
  - destruct (cmp x y <=? 0) eqn:E; unfold cmp in E.
    + apply Z.leb_le in E.
      constructor; [exact Hs|].
      inversion Hs as [|? ? _ Hall]; subst.
      constructor; [lia|].
      eapply Forall_impl; [|exact Hall]. simpl. intros; lia.
    + apply Z.leb_gt in E.
      inversion Hs as [|? ? Hl Hall]; subst.
      constructor; [apply IH, Hl|].
      eapply Permutation_Forall;
        [apply Permutation_sym, insertBy_perm|].
      constructor; [lia | exact Hall].
Qed.

Lemma sort_descending (l : list A) : descending key (Js.sort cmp l).
Proof.
  induction l as [|x l IH]; simpl.
  - constructor.
  - apply insertBy_descending, IH.
Qed.

(** Stability: the elements of one key keep their relative order. *)
Lemma insertBy_filter_key (c : Z) (x : A) (l : list A) :
  descending key l ->
  filter (fun a => key a =? c) (Js.insertBy cmp x l)
  = filter (fun a => key a =? c) (x :: l).
Proof.
  unfold descending.
  induction l as [|y l IH]; intros Hs; [reflexivity|].
  simpl Js.insertBy.
  destruct (cmp x y <=? 0) eqn:E; [reflexivity|].
  unfold cmp in E. apply Z.leb_gt in E.
  inversion Hs as [|? ? Hl Hall]; subst.
  change (filter (fun a => key a =? c) (y :: Js.insertBy cmp x l))
    with (if key y =? c
          then y :: filter (fun a => key a =? c) (Js.insertBy cmp x l)
          else filter (fun a => key a =? c) (Js.insertBy cmp x l)).
  rewrite (IH Hl). simpl.
  destruct (key x =? c) eqn:Ex, (key y =? c) eqn:Ey; try reflexivity.
  apply Z.eqb_eq in Ex, Ey. lia.
Qed.

Lemma sort_stable (c : Z) (l : list A) :
  filter (fun a => key a =? c) (Js.sort cmp l)
  = filter (fun a => key a =? c) l.
Proof.
  induction l as [|x l IH]; [reflexivity|].
  simpl Js.sort.
  rewrite insertBy_filter_key by apply sort_descending.
  simpl. rewrite IH. reflexivity.
Qed.
End SortByKey.

(** ** Auxiliary facts on lists and strings *)

Lemma filter_map_comm {A B : Type} (f : B -> bool) (g : A -> B) (l : list A) :
  filter f (map g l) = map g (filter (fun a => f (g a)) l).
Proof.
  induction l as [|a l IH]; simpl; [reflexivity|].
  destruct (f (g a)); simpl; rewrite IH; reflexivity.
Qed.

Lemma filter_filter {A : Type} (f g : A -> bool) (l : list A) :
  filter f (filter g l) = filter (fun a => (g a && f a)%bool) l.
Proof.
  induction l as [|a l IH]; simpl; [reflexivity|].
  destruct (g a); simpl; [destruct (f a)|]; rewrite IH; reflexivity.
Qed.

Lemma descending_map {A B : Type} (key : B -> Z) (g : A -> B) (l : list A) :
  descending (fun a => key (g a)) l -> descending key (map g l).
Proof.
  unfold descending. induction 1 as [|a l Hs IH Hall]; simpl.
  - constructor.
  - constructor; [exact IH|].
    apply Forall_map. exact Hall.
Qed.

Lemma startsWith_empty (s : string) : Js.startsWith s "" = true.
Proof. destruct s; reflexivity. Qed.

(** The empty string occurs in every string. *)
Lemma includes_empty (s : string) : Js.includes s "" = true.
Proof. destruct s; simpl; rewrite ?startsWith_empty; reflexivity. Qed.

(** ** The agent scorer *)

Lemma AGENTS_lowerCased (a : AgentMetadata) : In a AGENTS -> lowerCased a.
Proof.
  intros H. unfold lowerCased.
  assert (E : forallb (fun a =>
                forallb (fun s => String.eqb (Js.toLowerCase s) s)
                        (List.app (complexitySignals a) (domainSignals a)))
              AGENTS = true) by (vm_compute; reflexivity).
  rewrite forallb_forall in E. specialize (E a H).
  rewrite forallb_forall in E. apply Forall_forall.
  intros s Hs. apply String.eqb_eq, E, Hs.
Qed.

Lemma matchingSignals_ci (prompt : string) (signals : list string) :
  Forall (fun s => Js.toLowerCase s = s) signals ->
  matchingSignals (Js.toLowerCase prompt) signals
  = filter (ciSubstring prompt) signals.
Proof.
  intros H. unfold matchingSignals. apply filter_ext_in.
  intros s Hs. unfold ciSubstring.
  rewrite Forall_forall in H. rewrite (H s Hs). reflexivity.
Qed.

(** The confidence of [matchAgent] as a function of the number of pushes
    onto [matchedSignals]. *)
Lemma matchAgent_confidence (prompt : string) (a : AgentMetadata) :
  confidence (matchAgent prompt a)
  = signalConfidence
      (List.length (matchingSignals (Js.toLowerCase prompt)
                                    (complexitySignals a))
       + List.length (matchingSignals (Js.toLowerCase prompt)
                                      (domainSignals a))).
Proof.
  unfold matchAgent, signalConfidence.
  rewrite length_app.
  generalize (List.length (matchingSignals (Js.toLowerCase prompt)
                                           (complexitySignals a))
              + List.length (matchingSignals (Js.toLowerCase prompt)
                                             (domainSignals a)))%nat.
  intros [|n]; [reflexivity|].
  change (Nat.eqb (S n) 0) with false. cbv iota.
  destruct (Z.eqb_spec (Z.of_nat (S n)) 0) as [E|_]; [lia|].
  cbn [confidence]. f_equal. lia.
Qed.

Lemma matchAgent_matchedSignals (prompt : string) (a : AgentMetadata) :
  matchedSignals (matchAgent prompt a)
  = List.app (matchingSignals (Js.toLowerCase prompt) (complexitySignals a))
             (matchingSignals (Js.toLowerCase prompt) (domainSignals a)).
Proof.
  unfold matchAgent.
  destruct (List.app _ _) as [|s l]; [reflexivity|].
  destruct (Z.eqb_spec (Z.of_nat (List.length (s :: l))) 0) as [E|_];
    [cbn [List.length] in E; lia | reflexivity].
Qed.

Lemma signalConfidence_range (d : nat) :
  signalConfidence d = 0 \/ 60 <= signalConfidence d <= 95.
Proof.
  unfold signalConfidence. destruct d as [|d]; [left; reflexivity|].
  right. change (Nat.eqb (S d) 0) with false. cbv iota. lia.
Qed.

Lemma matchAgent_range (prompt : string) (a : AgentMetadata) :
  confidence (matchAgent prompt a) = 0
  \/ 60 <= confidence (matchAgent prompt a) <= 95.
Proof. rewrite matchAgent_confidence. apply signalConfidence_range. Qed.

(** The loop over the catalog keeps, in catalog order, the agents whose
    confidence reaches 50. *)
Lemma collectRecommendations_filter (prompt : string)
    (agents : list AgentMetadata) :
  collectRecommendations prompt agents
  = map (recommend prompt)
        (filter (fun a => 50 <=? confidence (matchAgent prompt a)) agents).
Proof.
  induction agents as [|a l IH]; simpl; [reflexivity|].
  destruct (50 <=? confidence (matchAgent prompt a)); simpl; rewrite IH;
    reflexivity.
Qed.

Lemma suggestAgent_valid (input : Js.Value) (prompt : string) :
  suggestAgentInputSchema input = Ok prompt ->
  suggestAgent input = Ok (mkSuggest (map toOutput (rankAgents prompt))).
Proof. intros H. unfold suggestAgent. rewrite H. reflexivity. Qed.

Lemma suggestAgent_inv (input : Js.Value) (out : SuggestAgentOutput) :
  suggestAgent input = Ok out ->
  exists prompt,
    suggestAgentInputSchema input = Ok prompt
    /\ recommendations out = map toOutput (rankAgents prompt).
Proof.
  unfold suggestAgent.
  destruct (suggestAgentInputSchema input) as [p|e]; [|discriminate].
  intros H. injection H as <-. exists p. split; reflexivity.
Qed.

Lemma rankAgents_In (prompt : string) (r : AgentRecommendation) :
  In r (rankAgents prompt) ->
  exists a, In a AGENTS /\ r = recommend prompt a
            /\ 50 <= confidence (matchAgent prompt a).
Proof.
  unfold rankAgents. intros H.
  apply (proj1 (sort_In recConfidence _ _)) in H.
  rewrite collectRecommendations_filter in H.
  apply in_map_iff in H. destruct H as [a [<- Ha]].
  apply filter_In in Ha. destruct Ha as [Ha Hc].
  exists a. repeat split; [exact Ha | apply Z.leb_le, Hc].
Qed.

Lemma AGENTS_name_inj (a b : AgentMetadata) :
  In a AGENTS -> In b AGENTS -> name a = name b -> a = b.
Proof.
  unfold AGENTS. simpl In.
  intros [<-|[<-|[<-|[<-|[]]]]] [<-|[<-|[<-|[<-|[]]]]] E;
    try reflexivity; vm_compute in E; discriminate E.
Qed.

Lemma matchedEntries_catalog (prompt : string) (a : AgentMetadata) :
  lowerCased a ->
  matchedEntries prompt a
  = (List.length (matchingSignals (Js.toLowerCase prompt)
                                  (complexitySignals a))
     + List.length (matchingSignals (Js.toLowerCase prompt)
                                    (domainSignals a)))%nat.
Proof.
  unfold lowerCased, matchedEntries. intros H.
  apply Forall_app in H. destruct H as [Hc Hd].
  rewrite !matchingSignals_ci by assumption. reflexivity.
Qed.

Lemma matchAgent_catalog (prompt : string) (a : AgentMetadata) :
  In a AGENTS ->
  confidence (matchAgent prompt a) = signalConfidence (matchedEntries prompt a).
Proof.
  intros Ha.
  rewrite matchedEntries_catalog by apply AGENTS_lowerCased, Ha.
  apply matchAgent_confidence.
Qed.

(** C1, as stated, fails on the catalog: [task-spec-creator] lists "system"
    both as a complexity and as a domain signal, so the validated prompt
    "system" matches one distinct signal, for which the claim gives 60,
    while [matchAgent] pushes it twice and returns 70. *)
Lemma matchAgent_distinct_count_refuted :
  In task_spec_creator AGENTS
  /\ suggestAgentInputSchema (promptInput "system") = Ok "system"
  /\ distinctMatched "system" task_spec_creator = 1%nat
  /\ signalConfidence (distinctMatched "system" task_spec_creator) = 60
  /\ confidence (matchAgent "system" task_spec_creator) = 70
  /\ confidence (matchAgent "system" task_spec_creator)
     <> signalConfidence (distinctMatched "system" task_spec_creator).
Proof.
  split; [left; reflexivity|].
  repeat split; try (vm_compute; reflexivity).
  vm_compute. discriminate.
Qed.

(** C1, amended: for every agent of the catalog and every prompt,
    [matchAgent] returns confidence 0 when no complexity or domain signal of
    the agent is a case-insensitive substring of the prompt, and otherwise
    [min(95, 60 + 10 * (d - 1))], where [d] counts the matched entries of the
    complexity list plus the matched entries of the domain list (a signal
    present in both lists counts twice).  For an agent with complexity
    signals [review] and domain signals [security], [auth], the prompt
    "please review this for security and auth issues" gives 80. *)
Theorem matchAgent_confidence_by_entries :
  (forall (prompt : string) (a : AgentMetadata),
      In a AGENTS ->
      confidence (matchAgent prompt a)
      = signalConfidence (matchedEntries prompt a))
  /\ (forall n d w e : string,
         confidence
           (matchAgent "please review this for security and auth issues"
                       (mkAgent n d w ["review"] ["security"; "auth"] e))
         = 80).
Proof.
  split.
  - intros prompt a Ha. apply matchAgent_catalog, Ha.
  - intros n d w e. rewrite matchAgent_confidence.
    cbn [complexitySignals domainSignals]. vm_compute. reflexivity.
Qed.

Lemma matchAgent_confidence_by_entries_witness :
  In security_auditor AGENTS
  /\ confidence
       (matchAgent "Please REVIEW the auth flow for XSS" security_auditor)
     = signalConfidence
         (matchedEntries "Please REVIEW the auth flow for XSS"
                         security_auditor).
Proof.
  split.
  - right; right; left; reflexivity.
  - apply (proj1 matchAgent_confidence_by_entries).
    right; right; left; reflexivity.
Defined.

(** C3: the recommendations of [suggestAgent] only carry confidences of at
    least 50 (and at most 95); an agent of the catalog without any matched
    signal is not among them; and every confidence [matchAgent] can return
    is 0 or lies in 50..95. *)
Theorem suggestAgent_threshold :
  forall (input : Js.Value) (out : SuggestAgentOutput),
    suggestAgent input = Ok out ->
    Forall (fun r => 50 <= outConfidence r <= 95) (recommendations out)
    /\ (forall (prompt : string) (a : AgentMetadata),
           suggestAgentInputSchema input = Ok prompt ->
           In a AGENTS ->
           matchedEntries prompt a = 0%nat ->
           ~ In (name a)
                (map (fun r => infoName (outAgent r)) (recommendations out)))
    /\ (forall (prompt : string) (a : AgentMetadata),
           confidence (matchAgent prompt a) = 0
           \/ 50 <= confidence (matchAgent prompt a) <= 95).
Proof.
  intros input out H.
  destruct (suggestAgent_inv _ _ H) as [p [Hp Hr]].
  split; [|split].
  - rewrite Hr. apply Forall_map, Forall_forall.
    intros r Hin. destruct (rankAgents_In _ _ Hin) as [a [_ [-> Hc]]].
    cbn [toOutput outConfidence recommend recConfidence].
    destruct (matchAgent_range p a); lia.
  - intros prompt a Hp' Ha Hz.
    rewrite Hp in Hp'. injection Hp' as <-.
    rewrite Hr, map_map. intros Hin.
    apply in_map_iff in Hin. destruct Hin as [r [Hn Hin]].
    destruct (rankAgents_In _ _ Hin) as [b [Hb [-> Hc]]].
    cbn [toOutput outAgent infoName recommend agent] in Hn.
    assert (b = a) by (apply AGENTS_name_inj; assumption). subst b.
    pose proof (matchAgent_catalog p a Ha) as E.
    rewrite Hz in E. change (signalConfidence 0) with 0 in E. lia.
  - intros prompt a. destruct (matchAgent_range prompt a); [left|right]; lia.
Qed.

Lemma suggestAgent_threshold_witness :
  suggestAgent (promptInput "audit this") = Ok auditOutput
  /\ Forall (fun r => 50 <= outConfidence r <= 95)
            (recommendations auditOutput).
Proof.
  assert (H : suggestAgent (promptInput "audit this") = Ok auditOutput)
    by (vm_compute; reflexivity).
  split; [exact H | exact (proj1 (suggestAgent_threshold _ _ H))].
Defined.

(** C10: every recommendation returned by [suggestAgent] has confidence at
    least 60; none lies in 50..59. *)
Theorem suggestAgent_min_confidence :
  forall (input : Js.Value) (out : SuggestAgentOutput),
    suggestAgent input = Ok out ->
    Forall (fun r => 60 <= outConfidence r) (recommendations out).
Proof.
  intros input out H.
  destruct (suggestAgent_inv _ _ H) as [p [_ Hr]].
  rewrite Hr. apply Forall_map, Forall_forall.
  intros r Hin. destruct (rankAgents_In _ _ Hin) as [a [_ [-> Hc]]].
  cbn [toOutput outConfidence recommend recConfidence].
  destruct (matchAgent_range p a); lia.
Qed.

Lemma suggestAgent_min_confidence_witness :
  suggestAgent (promptInput "  review the plan for the new system ")
  = Ok reviewOutput
  /\ Forall (fun r => 60 <= outConfidence r) (recommendations reviewOutput).
Proof.
  assert (H : suggestAgent
                (promptInput "  review the plan for the new system ")
              = Ok reviewOutput) by (vm_compute; reflexivity).
  split; [exact H | exact (suggestAgent_min_confidence _ _ H)].
Defined.

(** C6: the recommendations of [suggestAgent] are in descending order of
    confidence, and for each confidence value the recommendations carrying
    it are those of the catalog agents reaching it, in catalog order. *)
Theorem suggestAgent_sorted_stable :
  forall (input : Js.Value) (out : SuggestAgentOutput),
    suggestAgent input = Ok out ->
    descending outConfidence (recommendations out)
    /\ (forall (prompt : string) (c : Z),
           suggestAgentInputSchema input = Ok prompt ->
           filter (fun r => outConfidence r =? c) (recommendations out)
           = map (fun a => toOutput (recommend prompt a))
                 (filter (fun a =>
                            (50 <=? confidence (matchAgent prompt a))
                            && (confidence (matchAgent prompt a) =? c))%bool
                         AGENTS)).
Proof.
  intros input out H.
  destruct (suggestAgent_inv _ _ H) as [p [Hp Hr]].
  rewrite Hr. unfold rankAgents. split.
  - apply descending_map.
    apply (sort_descending recConfidence).
  - intros prompt c Hp'. rewrite Hp in Hp'. injection Hp' as <-.
    rewrite filter_map_comm.
    change (fun a : AgentRecommendation => outConfidence (toOutput a) =? c)
      with (fun a : AgentRecommendation => recConfidence a =? c).
    rewrite (sort_stable recConfidence c).
    rewrite collectRecommendations_filter, filter_map_comm, filter_filter.
    rewrite map_map. reflexivity.
Qed.

Lemma suggestAgent_sorted_stable_witness :
  suggestAgent (promptInput "check the design of the api") = Ok tiedOutput
  /\ descending outConfidence (recommendations tiedOutput)
  /\ map (fun r => (infoName (outAgent r), outConfidence r))
         (recommendations tiedOutput)
     = [("convex-architect", 70); ("plan-reviewer", 70);
        ("security-auditor", 60)].
Proof.
  assert (H : suggestAgent (promptInput "check the design of the api")
              = Ok tiedOutput) by (vm_compute; reflexivity).
  split; [exact H|].
  split; [exact (proj1 (suggestAgent_sorted_stable _ _ H))|].
  vm_compute; reflexivity.
Defined.

(** ** Resource relevance *)

Lemma keywordLoop_fst (nt : string) (keywords : list string)
    (acc : Z * list string) :
  fst (keywordLoop nt keywords acc)
  = fst acc
    + 10 * Z.of_nat
             (List.length
                (filter (fun k => Js.includes nt (Js.toLowerCase k)) keywords)).
Proof.
  revert acc. induction keywords as [|k ks IH]; intros acc.
  - simpl. lia.
  - cbn [keywordLoop filter]. rewrite IH.
    destruct (Js.includes nt (Js.toLowerCase k)); cbn [fst List.length]; lia.
Qed.

(** What the code computes, for every input. *)
Lemma calculateRelevance_fst (r : ResourceFile) (queryTopic : option string)
    (keywords : option (list string)) :
  fst (calculateRelevance r queryTopic keywords)
  = Z.min 100
      (50 + topicBonus (topic r) queryTopic
       + 10 * Z.of_nat
                (List.length
                   (filter (ciSubstring (topic r)) (keywordsOf keywords)))).
Proof.
  unfold calculateRelevance, topicBonus, ciSubstring.
  cbn [fst]. f_equal.
  set (at_ := match truthy queryTopic with
              | Some t => _
              | None => _
              end).
  assert (Ht : fst at_
               = 50 + match truthy queryTopic with
                      | Some t =>
                          if Js.includes (Js.toLowerCase (topic r))
                                         (Js.toLowerCase t)
                          then 40 else 0
                      | None => 0
                      end).
  { subst at_. destruct (truthy queryTopic) as [t|]; [|reflexivity].
    destruct (Js.includes _ _); reflexivity. }
  destruct keywords as [[|k ks]|]; cbn [keywordsOf].
  - rewrite Ht. simpl. lia.
  - rewrite keywordLoop_fst, Ht. reflexivity.
  - rewrite Ht. simpl. lia.
Qed.

Lemma calculateRelevance_base (r : ResourceFile) (queryTopic : option string)
    (keywords : option (list string)) :
  50 <= fst (calculateRelevance r queryTopic keywords) <= 100.
Proof.
  rewrite calculateRelevance_fst. unfold topicBonus.
  destruct (truthy queryTopic) as [t|]; [destruct (ciSubstring _ t)|]; lia.
Qed.

Lemma guardedRelevance_code (r : ResourceFile) (queryTopic : option string)
    (keywords : option (list string)) :
  fst (calculateRelevance r queryTopic keywords)
  = guardedRelevance (topic r) queryTopic (keywordsOf keywords).
Proof. apply calculateRelevance_fst. Qed.

Lemma scoreResource_resource (qt : option string) (k : option (list string))
    (r : ResourceFile) :
  resource (scoreResource qt k r) = r.
Proof.
  unfold scoreResource. destruct (calculateRelevance r qt k). reflexivity.
Qed.

Lemma scoreResource_relevance (qt : option string) (k : option (list string))
    (r : ResourceFile) :
  relevance (scoreResource qt k r) = fst (calculateRelevance r qt k).
Proof.
  unfold scoreResource. destruct (calculateRelevance r qt k). reflexivity.
Qed.

Lemma filter_all {A : Type} (f : A -> bool) (l : list A) :
  Forall (fun a => f a = true) l -> filter f l = l.
Proof.
  induction 1 as [|a l Ha _ IH]; simpl; [reflexivity|].
  rewrite Ha, IH. reflexivity.
Qed.

(** Every scored resource passes the filter, so ranking only reorders. *)
Lemma rankResources_sort (qt : option string) (k : option (list string))
    (resources : list ResourceFile) :
  rankResources qt k resources
  = Js.sort byRelevanceDesc (map (scoreResource qt k) resources).
Proof.
  unfold rankResources. apply filter_all.
  apply (sort_Forall relevance), Forall_map, Forall_forall.
  intros r _. rewrite scoreResource_relevance. apply Z.ltb_lt.
  pose proof (calculateRelevance_base r qt k). lia.
Qed.

Lemma rankResources_perm (qt : option string) (k : option (list string))
    (resources : list ResourceFile) :
  Permutation (rankResources qt k resources)
              (map (scoreResource qt k) resources).
Proof. rewrite rankResources_sort. apply (sort_perm relevance). Qed.

Lemma getSkillResources_existing (h : Host) (input : Js.Value)
    (skillsDir : string) (data : GetSkillResourcesInput)
    (resources : list ResourceFile) :
  getSkillResourcesInputSchema input = Ok data ->
  existsSync h (pathJoin h skillsDir (inSkillName data)) = true ->
  discoverResources h (pathJoin h skillsDir (inSkillName data))
                    (inSkillName data) = Ok resources ->
  getSkillResources h input skillsDir
  = Ok (mkResOutput (rankResources (inTopic data) (inKeywords data) resources)
                    (Z.of_nat (List.length resources))).
Proof.
  intros Hv He Hd. unfold getSkillResources.
  rewrite Hv, He. cbn [negb]. rewrite Hd. reflexivity.
Qed.

(** C4: no signal of the agent catalog is empty, so agent matching never
    meets one; but [calculateRelevance] has no guard against an empty
    keyword in its keyword loop (the topic has one, [if (topic)], and
    [extractKeywords] filters empty entries out): the input
    [{skillName: "frontend", keywords: [""]}] passes validation, and the
    empty keyword matches every resource topic and raises the relevance of
    every resource from 50 to 60. *)
Theorem calculateRelevance_empty_keyword :
  Forall (fun a => Forall (fun s => s <> "")
                          (List.app (complexitySignals a) (domainSignals a)))
         AGENTS
  /\ getSkillResourcesInputSchema
       (Js.VObj [("skillName", Js.VStr "frontend");
                 ("keywords", Js.VArr [Js.VStr ""])])
     = Ok (mkResInput "frontend" None (Some [""]))
  /\ (forall r : ResourceFile,
         fst (calculateRelevance r None (Some [""])) = 60
         /\ fst (calculateRelevance r None None) = 50)
  /\ (exists out,
         getSkillResources sampleHost
           (Js.VObj [("skillName", Js.VStr "frontend");
                     ("keywords", Js.VArr [Js.VStr ""])])
           "skills" = Ok out
         /\ map (fun rec => (fileName (resource rec), relevance rec))
                (resRecommendations out)
            = [("react-19-2-features.md", 60); ("forms-guide.md", 60)]).
Proof.
  split; [|split; [|split]].
  - unfold AGENTS. repeat (constructor; try discriminate).
  - vm_compute; reflexivity.
  - intros r. rewrite !calculateRelevance_fst.
    cbn [keywordsOf filter]. unfold ciSubstring, topicBonus.
    cbn [Js.toLowerCase truthy]. rewrite includes_empty.
    split; reflexivity.
  - eexists. split; vm_compute; reflexivity.
Qed.

(** C5, as stated, fails for an empty topic: the input
    [{skillName: "frontend", topic: "  "}] passes validation with the topic
    trimmed to the empty string, which is a substring of every resource
    topic, so the stated formula gives 90; [calculateRelevance] skips an
    empty topic and returns the base 50. *)
Lemma calculateRelevance_empty_topic_refuted :
  getSkillResourcesInputSchema
    (Js.VObj [("skillName", Js.VStr "frontend"); ("topic", Js.VStr "  ")])
  = Ok (mkResInput "frontend" (Some "") None)
  /\ statedRelevance (topic reactResource) (Some "") [] = 90
  /\ fst (calculateRelevance reactResource (Some "") None) = 50
  /\ fst (calculateRelevance reactResource (Some "") None)
     <> statedRelevance (topic reactResource) (Some "") [].
Proof.
  repeat split; try (vm_compute; reflexivity).
  vm_compute. discriminate.
Qed.

(** C5, amended: for an existing skill whose resources can be listed,
    [getSkillResources] succeeds and every returned resource has relevance
    50, plus 40 if the supplied topic is not empty and is a case-insensitive
    substring of the resource's derived topic, plus 10 for each supplied
    keyword that is a case-insensitive substring of it, clamped to 100; the
    relevance of a returned resource exceeds 40 and every resource scoring
    above 40 is returned.  A resource with derived topic
    "react 19 2 features" queried with topic "react 19" scores 90 and is
    returned. *)
Theorem getSkillResources_relevance :
  (forall (h : Host) (input : Js.Value) (skillsDir : string)
          (data : GetSkillResourcesInput) (resources : list ResourceFile),
      getSkillResourcesInputSchema input = Ok data ->
      existsSync h (pathJoin h skillsDir (inSkillName data)) = true ->
      discoverResources h (pathJoin h skillsDir (inSkillName data))
                        (inSkillName data) = Ok resources ->
      exists out,
        getSkillResources h input skillsDir = Ok out
        /\ Forall (fun rec =>
                     relevance rec
                     = guardedRelevance (topic (resource rec)) (inTopic data)
                                        (keywordsOf (inKeywords data))
                     /\ 40 < relevance rec)
                  (resRecommendations out)
        /\ (forall r,
               In r resources ->
               40 < guardedRelevance (topic r) (inTopic data)
                                     (keywordsOf (inKeywords data)) ->
               In r (map resource (resRecommendations out))))
  /\ extractTopic "react-19-2-features.md" = "react 19 2 features"
  /\ (forall r : ResourceFile,
         topic r = "react 19 2 features" ->
         fst (calculateRelevance r (Some "react 19") None) = 90
         /\ map (fun rec => (resource rec, relevance rec))
                (rankResources (Some "react 19") None [r]) = [(r, 90)]).
Proof.
  split; [|split].
  - intros h input skillsDir data resources Hv He Hd.
    eexists. split; [apply getSkillResources_existing; eassumption|].
    cbn [resRecommendations]. split.
    + unfold rankResources. apply Forall_forall. intros rec Hin.
      apply filter_In in Hin. destruct Hin as [Hin Hgt].
      apply Z.ltb_lt in Hgt. split; [|exact Hgt].
      apply (proj1 (sort_In relevance _ _)) in Hin.
      apply in_map_iff in Hin. destruct Hin as [r [<- _]].
      rewrite scoreResource_relevance, scoreResource_resource.
      apply guardedRelevance_code.
    + intros r Hin Hgt. apply in_map_iff.
      exists (scoreResource (inTopic data) (inKeywords data) r).
      split; [apply scoreResource_resource|].
      unfold rankResources. apply filter_In. split.
      * apply (proj2 (sort_In relevance _ _)), in_map, Hin.
      * apply Z.ltb_lt. rewrite scoreResource_relevance.
        rewrite guardedRelevance_code. exact Hgt.
  - vm_compute; reflexivity.
  - intros r Hr.
    assert (E : fst (calculateRelevance r (Some "react 19") None) = 90).
    { rewrite calculateRelevance_fst, Hr. vm_compute. reflexivity. }
    split; [exact E|].
    unfold rankResources. cbn [map Js.sort Js.insertBy filter].
    rewrite scoreResource_relevance, E.
    cbn [Z.ltb Z.compare Pos.compare Pos.compare_cont map].
    rewrite scoreResource_relevance, scoreResource_resource, E. reflexivity.
Qed.

Lemma getSkillResources_relevance_witness :
  exists out,
    getSkillResources sampleHost sampleQuery "skills" = Ok out
    /\ Forall (fun rec =>
                 relevance rec
                 = guardedRelevance (topic (resource rec)) (Some "React 19")
                                    ["guide"]
                 /\ 40 < relevance rec)
              (resRecommendations out)
    /\ (forall r,
           In r sampleResources ->
           40 < guardedRelevance (topic r) (Some "React 19") ["guide"] ->
           In r (map resource (resRecommendations out))).
Proof.
  apply (proj1 getSkillResources_relevance sampleHost sampleQuery "skills"
               (mkResInput "frontend" (Some "React 19") (Some ["guide"]))
               sampleResources).
  - vm_compute; reflexivity.
  - reflexivity.
  - vm_compute; reflexivity.
Defined.

(** C9: [calculateRelevance] never returns less than the base 50, so the
    filter of [getSkillResources] (relevance above 40) drops nothing: for an
    existing skill the returned recommendations are the discovered
    resources, reordered, and their number is [totalResources]. *)
Theorem getSkillResources_keeps_all :
  (forall (r : ResourceFile) (queryTopic : option string)
          (keywords : option (list string)),
      50 <= fst (calculateRelevance r queryTopic keywords))
  /\ (forall (h : Host) (input : Js.Value) (skillsDir : string)
             (data : GetSkillResourcesInput) (resources : list ResourceFile),
         getSkillResourcesInputSchema input = Ok data ->
         existsSync h (pathJoin h skillsDir (inSkillName data)) = true ->
         discoverResources h (pathJoin h skillsDir (inSkillName data))
                           (inSkillName data) = Ok resources ->
         exists out,
           getSkillResources h input skillsDir = Ok out
           /\ Permutation (map resource (resRecommendations out)) resources
           /\ Z.of_nat (List.length (resRecommendations out))
              = totalResources out).
Proof.
  split.
  - intros r qt k. apply calculateRelevance_base.
  - intros h input skillsDir data resources Hv He Hd.
    eexists. split; [apply getSkillResources_existing; eassumption|].
    cbn [resRecommendations totalResources].
    pose proof (rankResources_perm (inTopic data) (inKeywords data) resources)
      as P.
    split.
    + apply (Permutation_map resource) in P.
      rewrite map_map in P.
      rewrite (map_ext _ (fun r => r)) in P
        by (intros r; apply scoreResource_resource).
      rewrite map_id in P. exact P.
    + apply Permutation_length in P. rewrite P, length_map. reflexivity.
Qed.

Lemma getSkillResources_keeps_all_witness :
  exists out,
    getSkillResources sampleHost plainQuery "skills" = Ok out
    /\ Permutation (map resource (resRecommendations out)) sampleResources
    /\ Z.of_nat (List.length (resRecommendations out)) = totalResources out.
Proof.
  apply (proj2 getSkillResources_keeps_all sampleHost plainQuery "skills"
               (mkResInput "frontend" (Some "hooks")
                           (Some ["router"; "cache"]))
               sampleResources).
  - vm_compute; reflexivity.
  - reflexivity.
  - vm_compute; reflexivity.
Defined.

(** ** The skill scorer *)

Section SkillScorerFacts.
Import Skills.
Variable globMatch : string -> string -> bool.
Variable contentSignals : DiscoveredSkill -> list string.
Variable percentage : Category -> DiscoveredSkill -> list string -> Q.

Lemma extract_files_none (prompt : string) (ctx : MatchContext)
    (s : DiscoveredSkill) :
  noOpenFiles ctx ->
  extract globMatch contentSignals Files prompt ctx s = mkHits [] false.
Proof. intros [H|H]; unfold extract; rewrite H; reflexivity. Qed.

Lemma applicableWeight_no_files (prompt : string) (ctx : MatchContext)
    (s : DiscoveredSkill) :
  noOpenFiles ctx ->
  (applicableWeight globMatch contentSignals prompt ctx s == 70)%Q.
Proof.
  intros H. unfold applicableWeight, categories, isApplicable.
  cbn [filter]. rewrite (extract_files_none prompt ctx s H).
  cbn [extract applicable filter fold_right nominalWeight].
  vm_compute. reflexivity.
Qed.

Lemma normalizedWeight_no_files (prompt : string) (ctx : MatchContext)
    (s : DiscoveredSkill) :
  noOpenFiles ctx ->
  (normalizedWeight globMatch contentSignals prompt ctx s Keywords == 4 # 7)%Q
  /\ (normalizedWeight globMatch contentSignals prompt ctx s Content
      == 3 # 7)%Q
  /\ (normalizedWeight globMatch contentSignals prompt ctx s Files == 0)%Q.
Proof.
  intros H. unfold normalizedWeight, isApplicable.
  rewrite (extract_files_none prompt ctx s H).
  cbn [extract applicable nominalWeight].
  rewrite (applicableWeight_no_files prompt ctx s H).
  repeat split; vm_compute; reflexivity.
Qed.

Lemma hits_all_matched (prompt : string) (signals : list string) :
  Forall (fun k => signalMatches prompt k = true) signals ->
  filter (signalMatches prompt) signals = signals.
Proof. apply filter_all. Qed.
End SkillScorerFacts.

(** C2 (on the scorer modelled from the spec): with no open files the file
    category does not apply and its weight goes to the other two in
    proportion to their nominal weights, 40/70 for keywords and 30/70 for
    content; a skill all of whose keywords and content signals match then
    reaches confidence 100, for any percentage policy that gives 100 to a
    category whose declared signals all matched. *)
Theorem redistribution_reaches_100 :
  forall (globMatch : string -> string -> bool)
         (contentSignals : Skills.DiscoveredSkill -> list string)
         (percentage : Skills.Category -> Skills.DiscoveredSkill ->
                       list string -> Q)
         (prompt : string) (ctx : Skills.MatchContext)
         (s : Skills.DiscoveredSkill),
    (forall c sk,
        Skills.declared contentSignals c sk <> [] ->
        (percentage c sk (Skills.declared contentSignals c sk) == 100)%Q) ->
    noOpenFiles ctx ->
    Skills.keywords s <> [] ->
    contentSignals s <> [] ->
    Forall (fun k => Skills.signalMatches prompt k = true)
           (Skills.keywords s) ->
    Forall (fun k => Skills.signalMatches prompt k = true)
           (contentSignals s) ->
    (Skills.normalizedWeight globMatch contentSignals prompt ctx s
                             Skills.Keywords == 4 # 7)%Q
    /\ (Skills.normalizedWeight globMatch contentSignals prompt ctx s
                                Skills.Content == 3 # 7)%Q
    /\ (Skills.normalizedWeight globMatch contentSignals prompt ctx s
                                Skills.Files == 0)%Q
    /\ Skills.confidence
         (Skills.scoreSkill globMatch contentSignals percentage prompt ctx s)
       = 100.
Proof.
  intros globMatch contentSignals percentage prompt ctx s
         Hsat Hnf Hk Hc Hkm Hcm.
  destruct (normalizedWeight_no_files globMatch contentSignals prompt ctx s Hnf)
    as [Wk [Wc Wf]].
  repeat split; try assumption.
  unfold Skills.scoreSkill. cbn [Skills.confidence].
  unfold Skills.categories. cbn [fold_right].
  assert (Pk : (Skills.categoryScore globMatch contentSignals percentage
                                     prompt ctx s Skills.Keywords == 100)%Q).
  { unfold Skills.categoryScore, Skills.isApplicable.
    cbn [Skills.extract Skills.applicable Skills.hits].
    rewrite hits_all_matched by exact Hkm.
    apply (Hsat Skills.Keywords s). exact Hk. }
  assert (Pc : (Skills.categoryScore globMatch contentSignals percentage
                                     prompt ctx s Skills.Content == 100)%Q).
  { unfold Skills.categoryScore, Skills.isApplicable.
    cbn [Skills.extract Skills.applicable Skills.hits].
    rewrite hits_all_matched by exact Hcm.
    apply (Hsat Skills.Content s). exact Hc. }
  unfold Skills.round.
  rewrite Wk, Wc, Wf, Pk, Pc.
  match goal with
  | |- Skills.clamp 0 100 (Qfloor ?q) = 100 =>
      assert (E : (q == 100 + (1 # 2))%Q) by (ring_simplify; reflexivity)
  end.
  rewrite E. vm_compute. reflexivity.
Qed.

Lemma redistribution_reaches_100_witness :
  Skills.confidence
    (Skills.scoreSkill neverGlob sampleContent
       (Skills.shareOfDeclared sampleContent)
       "Create a Convex mutation behind a webhook (HTTP action)"
       (Skills.mkContext None None) convexSkill)
  = 100.
Proof.
  apply (redistribution_reaches_100 neverGlob sampleContent
           (Skills.shareOfDeclared sampleContent)
           "Create a Convex mutation behind a webhook (HTTP action)"
           (Skills.mkContext None None) convexSkill).
  - intros c sk Hd. unfold Skills.shareOfDeclared.
    destruct (Skills.declared sampleContent c sk) as [|d ds];
      [contradiction|].
    unfold Qeq, Qdiv, Qmult, Qinv, inject_Z. cbn [Qnum Qden].
    destruct (Z.of_nat (List.length (d :: ds))) as [|p|p] eqn:E;
      cbn [List.length] in E; try lia.
    cbn [Qnum Qden]. lia.
  - left; reflexivity.
  - discriminate.
  - discriminate.
  - repeat constructor.
  - repeat constructor.
Defined.

(** ** Entry points: empty catalog and input validation *)

(** What does hold of C8: when discovery hands over a catalog without
    skills, [getRelevantSkills] succeeds on every valid input, with no
    matches and [totalSkillsScanned] 0 ([matchPromptToSkills] being the one
    modelled from the spec). *)
Lemma getRelevantSkills_no_skills
    (globMatch : string -> string -> bool)
    (contentSignals : Skills.DiscoveredSkill -> list string)
    (percentage : Skills.Category -> Skills.DiscoveredSkill ->
                  list string -> Q)
    (h : BunHost) (input : Js.Value) (skillsDir : string)
    (cache cache' : Skills.Cache) (warnings : list Skills.Warning)
    (data : Skills.GetRelevantSkillsInput) :
  Skills.getRelevantSkillsInputSchema input = Ok data ->
  Skills.discoverSkillsCached h skillsDir cache
  = (Skills.Returned (Ok []), cache', warnings) ->
  Skills.getRelevantSkills globMatch contentSignals percentage h
                           input skillsDir cache
  = (Skills.Returned (Ok (Skills.mkOutput [] 0)), cache', warnings).
Proof.
  intros Hv Hd. unfold Skills.getRelevantSkills. rewrite Hv, Hd. reflexivity.
Qed.

(** On a path that names a directory, [discoverSkills] stops at its
    existence check, whatever the directory holds. *)
Lemma discoverSkills_directory (h : BunHost) (skillsDir : string) :
  nodeAt h (resolvePath h skillsDir) = Some Directory ->
  Skills.discoverSkills h skillsDir
  = (Skills.Returned (Err (DirectoryNotFound (resolvePath h skillsDir))), []).
Proof.
  intros H. unfold Skills.discoverSkills, bunFileExists. rewrite H.
  reflexivity.
Qed.

(** C8 fails on the code: with the skills path naming an existing directory
    without any skill in it, the catalog has no item, yet
    [getRelevantSkills] on a valid prompt returns [ok: false], "Skills
    directory not found", and caches nothing: the existence check of
    [discoverSkills] asks [Bun.file(dir).exists()], which is false for a
    directory. *)
Theorem getRelevantSkills_empty_directory :
  nodeAt emptySkillsHost (resolvePath emptySkillsHost "skills")
  = Some Directory
  /\ globScan emptySkillsHost (resolvePath emptySkillsHost "skills")
     = Some []
  /\ Skills.getRelevantSkillsInputSchema
       (promptInput "create a convex mutation")
     = Ok (Skills.mkInput "create a convex mutation"
                          (Skills.mkContext None None))
  /\ Skills.getRelevantSkills neverGlob sampleContent
       (Skills.shareOfDeclared sampleContent) emptySkillsHost
       (promptInput "create a convex mutation") "skills" None
     = (Skills.Returned (Err (DirectoryNotFound "skills")), None, []).
Proof. repeat split; vm_compute; reflexivity. Qed.

(** C7, as stated, fails for a prompt that is longer than 10000 characters
    only through surrounding white space: the schema trims before it checks
    the length, so [suggestAgent] accepts the 10001 characters of
    [paddedPrompt] and scores the prompt "a". *)
Lemma padded_prompt_accepted :
  10000 < Js.len paddedPrompt
  /\ rejectedAsStated (promptInput paddedPrompt)
  /\ suggestAgent (promptInput paddedPrompt) = Ok (mkSuggest [])
  /\ ok (suggestAgent (promptInput paddedPrompt)) = true.
Proof.
  assert (L : 10000 < Js.len paddedPrompt) by (vm_compute; reflexivity).
  split; [exact L|]. split; [right; exact L|].
  split; vm_compute; reflexivity.
Qed.

Lemma parsePrompt_rejects (path : string) (v : Js.Value) :
  match v with
  | Js.VStr s => Js.trim s = "" \/ 10000 < Js.len (Js.trim s)
  | _ => True
  end ->
  exists issue, parsePrompt path v = Err (InvalidInput issue).
Proof.
  destruct v as [| | | |s| |]; intros H;
    try (eexists; reflexivity).
  unfold parsePrompt. destruct H as [H|H].
  - rewrite H. eexists; reflexivity.
  - destruct (Js.len (Js.trim s) <? 1); [eexists; reflexivity|].
    apply Z.ltb_lt in H. rewrite H. eexists; reflexivity.
Qed.

(** C7, amended: when the prompt is missing or not a string, is empty or
    white space only, or is longer than 10000 characters after trimming,
    [suggestAgent] and [getRelevantSkills] both return a validation failure
    ([ok] false); [getRelevantSkills] does so whatever the disk holds,
    leaves the skill cache as it was and writes no warning, so nothing has
    been discovered, extracted or scored. *)
Theorem invalid_prompt_rejected :
  forall input : Js.Value,
    rejectedAfterTrim input ->
    (exists issue, suggestAgent input = Err (InvalidInput issue))
    /\ (forall (globMatch : string -> string -> bool)
               (contentSignals : Skills.DiscoveredSkill -> list string)
               (percentage : Skills.Category -> Skills.DiscoveredSkill ->
                             list string -> Q)
               (h : BunHost) (skillsDir : string) (cache : Skills.Cache),
           exists issue,
             Skills.getRelevantSkills globMatch contentSignals percentage
                                      h input skillsDir cache
             = (Skills.Returned (Err (InvalidInput issue)), cache, [])).
Proof.
  intros input H. unfold rejectedAfterTrim, promptOf in H.
  unfold suggestAgent, Skills.getRelevantSkills,
    suggestAgentInputSchema, Skills.getRelevantSkillsInputSchema.
  destruct input as [| | | | | |fields];
    try (split; intros; eexists; reflexivity).
  assert (R : exists issue,
             parsePrompt "prompt" (Js.getField fields "prompt")
             = Err (InvalidInput issue)).
  { apply parsePrompt_rejects.
    destruct (Js.getField fields "prompt"); try exact I. exact H. }
  destruct R as [issue R]. rewrite R.
  split; intros; exists issue; reflexivity.
Qed.

Lemma invalid_prompt_rejected_witness :
  rejectedAfterTrim (promptInput "   ")
  /\ exists issue,
       suggestAgent (promptInput "   ") = Err (InvalidInput issue).
Proof.
  assert (H : rejectedAfterTrim (promptInput "   ")) by (left; reflexivity).
  split; [exact H | exact (proj1 (invalid_prompt_rejected _ H))].
Defined.

(* ================================================================== *)
(** * Further properties of the agent scorer *)

Lemma lowerChar_idem (c : ascii) : Js.lowerChar (Js.lowerChar c) = Js.lowerChar c.
Proof. destruct c as [[] [] [] [] [] [] [] []]; reflexivity. Qed.

Lemma lowerChar_whiteSpace (c : ascii) :
  Js.isWhiteSpace (Js.lowerChar c) = Js.isWhiteSpace c.
Proof. destruct c as [[] [] [] [] [] [] [] []]; reflexivity. Qed.

Lemma toLowerCase_idem (s : string) :
  Js.toLowerCase (Js.toLowerCase s) = Js.toLowerCase s.
Proof.
  induction s as [|c s IH]; simpl; [reflexivity|].
  rewrite lowerChar_idem, IH. reflexivity.
Qed.

Lemma toLowerCase_length (s : string) :
  String.length (Js.toLowerCase s) = String.length s.
Proof. induction s as [|c s IH]; simpl; [reflexivity | rewrite IH; reflexivity]. Qed.

Lemma toLowerCase_app (s t : string) :
  Js.toLowerCase (s ++ t) = Js.toLowerCase s ++ Js.toLowerCase t.
Proof. induction s as [|c s IH]; simpl; [reflexivity | rewrite IH; reflexivity]. Qed.

Lemma trimStart_lower (s : string) :
  Js.trimStart (Js.toLowerCase s) = Js.toLowerCase (Js.trimStart s).
Proof.
  induction s as [|c s IH]; simpl; [reflexivity|].
  rewrite lowerChar_whiteSpace. destruct (Js.isWhiteSpace c); [exact IH | reflexivity].
Qed.

Lemma trimEnd_lower (s : string) :
  Js.trimEnd (Js.toLowerCase s) = Js.toLowerCase (Js.trimEnd s).
Proof.
  induction s as [|c s IH]; simpl; [reflexivity|].
  rewrite IH, lowerChar_whiteSpace.
  destruct (Js.trimEnd s) as [|d r]; simpl.
  - destruct (Js.isWhiteSpace c); reflexivity.
  - reflexivity.
Qed.

Lemma trim_lower (s : string) :
  Js.trim (Js.toLowerCase s) = Js.toLowerCase (Js.trim s).
Proof. unfold Js.trim. rewrite trimStart_lower, trimEnd_lower. reflexivity. Qed.

Lemma startsWith_app (s t p : string) :
  Js.startsWith s p = true -> Js.startsWith (s ++ t) p = true.
Proof.
  revert p. induction s as [|c s IH]; intros [|a p] H;
    try apply startsWith_empty; try discriminate H.
  cbn [Js.startsWith] in H. apply andb_true_iff in H. destruct H as [H1 H2].
  change ((String c s ++ t)%string) with (String c (s ++ t)).
  cbn [Js.startsWith]. rewrite H1, (IH _ H2). reflexivity.
Qed.

Lemma includes_app_r (s t p : string) :
  Js.includes s p = true -> Js.includes (s ++ t) p = true.
Proof.
  induction s as [|c s IH]; intros H.
  - simpl in H. rewrite orb_false_r in H.
    destruct p; [apply includes_empty | discriminate].
  - cbn [Js.includes] in H. apply orb_true_iff in H.
    change ((String c s ++ t)%string) with (String c (s ++ t)).
    cbn [Js.includes]. apply orb_true_iff. destruct H as [H|H].
    + left. apply (startsWith_app (String c s) t p H).
    + right. apply IH, H.
Qed.

Lemma includes_app_l (t s p : string) :
  Js.includes s p = true -> Js.includes (t ++ s) p = true.
Proof.
  intros H. induction t as [|c t IH]; [exact H|].
  change ((String c t ++ s)%string) with (String c (t ++ s)).
  cbn [Js.includes]. rewrite IH. apply orb_true_r.
Qed.

Lemma filter_length_mono {A : Type} (f g : A -> bool) (l : list A) :
  (forall a, In a l -> f a = true -> g a = true) ->
  (List.length (filter f l) <= List.length (filter g l))%nat.
Proof.
  induction l as [|a l IH]; intros H; simpl; [lia|].
  assert (IH' := IH (fun b Hb => H b (or_intror Hb))).
  destruct (f a) eqn:Ef.
  - rewrite (H a (or_introl eq_refl) Ef). simpl. lia.
  - destruct (g a); simpl; lia.
Qed.

Lemma signalConfidence_mono (m n : nat) :
  (m <= n)%nat -> signalConfidence m <= signalConfidence n.
Proof.
  unfold signalConfidence. intros H.
  destruct m as [|m], n as [|n]; try lia.
  - change (Nat.eqb 0 0) with true. change (Nat.eqb (S n) 0) with false.
    cbv iota. lia.
  - change (Nat.eqb (S m) 0) with false. change (Nat.eqb (S n) 0) with false.
    cbv iota. lia.
Qed.

Lemma matchAgent_nonzero (prompt : string) (a : AgentMetadata) :
  50 <= confidence (matchAgent prompt a) ->
  matchedSignals (matchAgent prompt a) <> []
  /\ confidence (matchAgent prompt a)
     = Z.min 95 (50 + 10 * Z.of_nat
                            (List.length (matchedSignals (matchAgent prompt a))))
  /\ reasoning (matchAgent prompt a)
     = generateReasoning a (matchedSignals (matchAgent prompt a)).
Proof.
  rewrite matchAgent_matchedSignals. unfold matchAgent.
  destruct (List.app _ _) as [|s l]; cbn [List.length].
  - change (Z.of_nat 0 =? 0) with true. cbv iota. cbn [confidence]. lia.
  - destruct (Z.eqb_spec (Z.of_nat (S (List.length l))) 0) as [E|_]; [lia|].
    cbn [confidence reasoning]. intros _.
    split; [discriminate|]. split; [f_equal; lia | reflexivity].
Qed.

(** X1: in every recommendation [suggestAgent] returns, the list of matched
    signals is not empty and the confidence is 50 plus 10 per listed signal,
    capped at 95. *)
Theorem suggestAgent_confidence_counts_signals :
  forall (input : Js.Value) (out : SuggestAgentOutput),
    suggestAgent input = Ok out ->
    Forall (fun r =>
              outMatchedSignals r <> []
              /\ outConfidence r
                 = Z.min 95 (50 + 10 * Z.of_nat
                                        (List.length (outMatchedSignals r))))
           (recommendations out).
Proof.
  intros input out H.
  destruct (suggestAgent_inv _ _ H) as [p [_ Hr]].
  rewrite Hr. apply Forall_map, Forall_forall.
  intros r Hin. destruct (rankAgents_In _ _ Hin) as [a [_ [-> Hc]]].
  cbn [toOutput outConfidence outMatchedSignals recommend recConfidence
       recMatchedSignals].
  destruct (matchAgent_nonzero p a Hc) as [H1 [H2 _]]. split; assumption.
Qed.

Lemma suggestAgent_confidence_counts_signals_witness :
  suggestAgent (promptInput "check the design of the api") = Ok tiedOutput
  /\ Forall (fun r =>
               outMatchedSignals r <> []
               /\ outConfidence r
                  = Z.min 95 (50 + 10 * Z.of_nat
                                         (List.length (outMatchedSignals r))))
            (recommendations tiedOutput).
Proof.
  assert (H : suggestAgent (promptInput "check the design of the api")
              = Ok tiedOutput) by (vm_compute; reflexivity).
  split; [exact H | exact (suggestAgent_confidence_counts_signals _ _ H)].
Defined.

(** X2: the matched signals of a returned recommendation are exactly the
    signals of that catalog agent which occur in the lower-cased, trimmed
    prompt: complexity signals first, then domain signals, each in catalog
    order. *)
Theorem suggestAgent_matched_signals_exact :
  forall (input : Js.Value) (out : SuggestAgentOutput) (prompt : string),
    suggestAgent input = Ok out ->
    suggestAgentInputSchema input = Ok prompt ->
    Forall (fun r =>
              exists a,
                In a AGENTS
                /\ infoName (outAgent r) = name a
                /\ outMatchedSignals r
                   = filter (Js.includes (Js.toLowerCase prompt))
                            (List.app (complexitySignals a)
                                      (domainSignals a)))
           (recommendations out).
Proof.
  intros input out prompt H Hp'.
  destruct (suggestAgent_inv _ _ H) as [p [Hp Hr]].
  rewrite Hp in Hp'. injection Hp' as <-.
  rewrite Hr. apply Forall_map, Forall_forall.
  intros r Hin. destruct (rankAgents_In _ _ Hin) as [a [Ha [-> _]]].
  exists a. split; [exact Ha|]. split; [reflexivity|].
  cbn [toOutput outMatchedSignals recommend recMatchedSignals].
  rewrite matchAgent_matchedSignals. unfold matchingSignals.
  symmetry. apply filter_app.
Qed.

Lemma suggestAgent_matched_signals_exact_witness :
  Forall (fun r =>
            exists a,
              In a AGENTS
              /\ infoName (outAgent r) = name a
              /\ outMatchedSignals r
                 = filter (Js.includes (Js.toLowerCase "audit this"))
                          (List.app (complexitySignals a) (domainSignals a)))
         (recommendations auditOutput).
Proof.
  apply (suggestAgent_matched_signals_exact (promptInput " Audit this ")
                                            auditOutput "Audit this").
  - vm_compute; reflexivity.
  - vm_compute; reflexivity.
Defined.

Lemma NoDup_map_filter {A B : Type} (g : A -> B) (f : A -> bool) (l : list A) :
  NoDup (map g l) -> NoDup (map g (filter f l)).
Proof.
  induction l as [|a l IH]; simpl; intros H; [constructor|].
  inversion H as [|? ? Hn Hd]; subst.
  destruct (f a); simpl; [|apply IH, Hd].
  constructor; [|apply IH, Hd].
  intros Hin. apply Hn. apply in_map_iff in Hin.
  destruct Hin as [b [Hb Hin]]. apply filter_In in Hin.
  apply in_map_iff. exists b. split; [exact Hb | apply Hin].
Qed.

Lemma AGENTS_names_NoDup : NoDup (map name AGENTS).
Proof.
  unfold AGENTS. cbn [map].
  repeat (constructor;
          [cbn [In]; intros H;
           repeat (destruct H as [H|H]; [vm_compute in H; discriminate H|]);
           exact H|]).
  constructor.
Qed.

Lemma rankAgents_names (prompt : string) :
  Permutation
    (map (fun r => infoName (outAgent r)) (map toOutput (rankAgents prompt)))
    (map name
         (filter (fun a => 50 <=? confidence (matchAgent prompt a)) AGENTS)).
Proof.
  unfold rankAgents. rewrite map_map.
  eapply perm_trans.
  - apply Permutation_map. apply (sort_perm recConfidence).
  - rewrite collectRecommendations_filter, map_map. apply Permutation_refl.
Qed.

(** X3: [suggestAgent] never recommends an agent twice: the names in its
    output are pairwise distinct, all belong to the catalog, and there are
    at most four of them. *)
Theorem suggestAgent_no_duplicates :
  forall (input : Js.Value) (out : SuggestAgentOutput),
    suggestAgent input = Ok out ->
    NoDup (map (fun r => infoName (outAgent r)) (recommendations out))
    /\ incl (map (fun r => infoName (outAgent r)) (recommendations out))
            (map name AGENTS)
    /\ (List.length (recommendations out) <= 4)%nat.
Proof.
  intros input out H.
  destruct (suggestAgent_inv _ _ H) as [p [_ Hr]]. rewrite Hr.
  pose proof (rankAgents_names p) as P.
  split; [|split].
  - eapply Permutation_NoDup; [apply Permutation_sym, P|].
    apply NoDup_map_filter, AGENTS_names_NoDup.
  - intros n Hn. apply (Permutation_in _ P) in Hn.
    apply in_map_iff in Hn. destruct Hn as [a [<- Ha]].
    apply filter_In in Ha. apply in_map, Ha.
  - apply Permutation_length in P. rewrite !length_map in P.
    rewrite length_map, P.
    apply (Nat.le_trans _ (List.length AGENTS)); [apply List.filter_length_le|].
    apply Nat.le_refl.
Qed.

Lemma suggestAgent_no_duplicates_witness :
  NoDup (map (fun r => infoName (outAgent r)) (recommendations reviewOutput)).
Proof.
  apply (suggestAgent_no_duplicates
           (promptInput "review the plan for the new system") reviewOutput).
  vm_compute; reflexivity.
Defined.

Lemma matchAgent_lower_eq (p q : string) (a : AgentMetadata) :
  Js.toLowerCase p = Js.toLowerCase q -> matchAgent p a = matchAgent q a.
Proof. intros H. unfold matchAgent. rewrite H. reflexivity. Qed.

Lemma collectRecommendations_ext (p q : string) (agents : list AgentMetadata) :
  (forall a, matchAgent p a = matchAgent q a) ->
  collectRecommendations p agents = collectRecommendations q agents.
Proof.
  intros H. induction agents as [|a l IH]; simpl; [reflexivity|].
  rewrite (H a), IH. reflexivity.
Qed.

(** X4: for prompts whose code units are all below 256, letter case never
    changes the answer of [suggestAgent]: two such prompts that agree after
    lower-casing are both rejected with the same issue or both accepted
    with the same recommendations. *)
Theorem suggestAgent_case_insensitive :
  forall p q : string,
    Js.toLowerCase p = Js.toLowerCase q ->
    suggestAgent (promptInput p) = suggestAgent (promptInput q).
Proof.
  intros p q H.
  assert (T : Js.toLowerCase (Js.trim p) = Js.toLowerCase (Js.trim q))
    by (rewrite <- !trim_lower, H; reflexivity).
  assert (L : Js.len (Js.trim p) = Js.len (Js.trim q)).
  { unfold Js.len. rewrite <- (toLowerCase_length (Js.trim p)), T.
    rewrite toLowerCase_length. reflexivity. }
  unfold suggestAgent, suggestAgentInputSchema, promptInput.
  cbn [Js.getField String.eqb Ascii.eqb Bool.eqb andb]. unfold parsePrompt.
  rewrite L.
  destruct (Js.len (Js.trim q) <? 1); [reflexivity|].
  destruct (10000 <? Js.len (Js.trim q)); [reflexivity|].
  unfold rankAgents.
  rewrite (collectRecommendations_ext (Js.trim p) (Js.trim q) AGENTS).
  - reflexivity.
  - intros a. apply matchAgent_lower_eq, T.
Qed.

Lemma suggestAgent_case_insensitive_witness :
  suggestAgent (promptInput "REVIEW the Auth flow")
  = suggestAgent (promptInput "review the auth FLOW").
Proof.
  apply suggestAgent_case_insensitive. reflexivity.
Defined.

(** X5: text added in front of or behind a prompt never lowers the
    confidence [matchAgent] gives an agent. *)
Theorem matchAgent_monotone :
  forall (pre p post : string) (a : AgentMetadata),
    confidence (matchAgent p a)
    <= confidence (matchAgent (pre ++ p ++ post) a).
Proof.
  intros pre p post a. rewrite !matchAgent_confidence.
  apply signalConfidence_mono.
  assert (M : forall s,
             Js.includes (Js.toLowerCase p) s = true ->
             Js.includes (Js.toLowerCase (pre ++ p ++ post)) s = true).
  { intros s Hs. rewrite !toLowerCase_app.
    apply includes_app_l, includes_app_r, Hs. }
  unfold matchingSignals.
  apply Nat.add_le_mono; apply filter_length_mono; intros s _; apply M.
Qed.

Lemma append_nonempty_r (s t : string) : t <> "" -> (s ++ t)%string <> "".
Proof.
  intros H E. destruct s; simpl in E; [contradiction | discriminate].
Qed.

Lemma join_nonempty (sep : string) (l : list string) :
  Exists (fun s => s <> "") l -> Js.join sep l <> "".
Proof.
  unfold Js.join.
  induction l as [|x l IH]; intros H; [inversion H|].
  destruct l as [|y l].
  - inversion H as [? ? Hx|? ? Hn]; subst; [exact Hx | inversion Hn].
  - cbn [String.concat].
    inversion H as [? ? Hx|? ? Hn]; subst.
    + destruct x; [contradiction | discriminate].
    + apply append_nonempty_r, append_nonempty_r, IH, Hn.
Qed.

Lemma generateReasoning_nonempty (a : AgentMetadata) (matched : list string) :
  In a AGENTS -> generateReasoning a matched <> "".
Proof.
  unfold AGENTS. cbn [In].
  intros [<-|[<-|[<-|[<-|[]]]]]; unfold generateReasoning;
    match goal with
    | |- context [String.eqb (name ?x) _] =>
        let n := eval vm_compute in (name x) in
        change (name x) with n
    end;
    cbn [String.eqb Ascii.eqb Bool.eqb andb];
    apply join_nonempty, Exists_exists;
    eexists; (split; [apply in_or_app; right;
                      first [left; reflexivity
                            | apply in_or_app; right; left; reflexivity]
                     | discriminate]).
Qed.

(** X6: every recommendation [suggestAgent] returns carries a non-empty
    reasoning text. *)
Theorem suggestAgent_reasoning_nonempty :
  forall (input : Js.Value) (out : SuggestAgentOutput),
    suggestAgent input = Ok out ->
    Forall (fun r => outReasoning r <> "") (recommendations out).
Proof.
  intros input out H.
  destruct (suggestAgent_inv _ _ H) as [p [_ Hr]].
  rewrite Hr. apply Forall_map, Forall_forall.
  intros r Hin. destruct (rankAgents_In _ _ Hin) as [a [Ha [-> Hc]]].
  cbn [toOutput outReasoning recommend recReasoning].
  destruct (matchAgent_nonzero p a Hc) as [_ [_ ->]].
  apply generateReasoning_nonempty, Ha.
Qed.

Lemma suggestAgent_reasoning_nonempty_witness :
  Forall (fun r => outReasoning r <> "") (recommendations tiedOutput).
Proof.
  apply (suggestAgent_reasoning_nonempty
           (promptInput "check the design of the api") tiedOutput).
  vm_compute; reflexivity.
Defined.

(* ================================================================== *)
(** * Further properties of resource discovery and relevance *)

Lemma scanEntries_filter (h : Host) (dir skill : string) (entries : list string) :
  scanEntries h dir skill entries
  = map (fun e => mkResource e (pathJoin h dir e) (extractTopic e) skill)
        (filter (keepsEntry h dir) entries).
Proof.
  induction entries as [|e l IH]; [reflexivity|].
  cbn [scanEntries filter]. unfold keepsEntry at 1.
  destruct (statIsFile h (pathJoin h dir e)) as [[|]|]; cbn [negb orb].
  - destruct (Js.startsWith e "."); cbn [negb andb]; [exact IH|].
    destruct (Js.endsWith e ".md"); cbn [negb map]; rewrite IH; reflexivity.
  - exact IH.
  - exact IH.
Qed.

(** X7: [discoverResources] returns, in listing order, exactly the entries
    of the skill's [resources] directory that are regular files, do not
    start with a dot and end in [.md], each with its joined path, the topic
    derived from its name and the skill name; a missing directory gives an
    empty list, and a failing directory read is passed on as the error. *)
Theorem discoverResources_listing :
  forall (h : Host) (skillPath skill : string),
    (existsSync h (pathJoin h skillPath "resources") = false ->
     discoverResources h skillPath skill = Ok [])
    /\ (forall entries,
           existsSync h (pathJoin h skillPath "resources") = true ->
           readdirSync h (pathJoin h skillPath "resources") = Ok entries ->
           discoverResources h skillPath skill
           = Ok (map (fun e =>
                        mkResource e
                          (pathJoin h (pathJoin h skillPath "resources") e)
                          (extractTopic e) skill)
                     (filter (keepsEntry h (pathJoin h skillPath "resources"))
                             entries)))
    /\ (forall e,
           existsSync h (pathJoin h skillPath "resources") = true ->
           readdirSync h (pathJoin h skillPath "resources") = Err e ->
           discoverResources h skillPath skill = Err e).
Proof.
  intros h skillPath skill. unfold discoverResources.
  split; [|split].
  - intros ->. reflexivity.
  - intros entries -> ->. cbn [negb]. rewrite scanEntries_filter. reflexivity.
  - intros e -> ->. reflexivity.
Qed.

Lemma discoverResources_listing_witness :
  discoverResources sampleHost "skills/frontend" "frontend"
  = Ok sampleResources.
Proof.
  rewrite (proj1 (proj2 (discoverResources_listing
                           sampleHost "skills/frontend" "frontend"))
                 ["react-19-2-features.md"; ".hidden.md"; "notes.txt";
                  "forms-guide.md"] eq_refl eq_refl).
  vm_compute. reflexivity.
Defined.

Lemma dashesToSpaces_length (s : string) :
  String.length (dashesToSpaces s) = String.length s.
Proof. induction s as [|c s IH]; simpl; [reflexivity | rewrite IH; reflexivity]. Qed.

Lemma dashesToSpaces_no_dash (s : string) :
  Js.includes (dashesToSpaces s) "-" = false.
Proof.
  induction s as [|c s IH]; [reflexivity|].
  cbn [dashesToSpaces Js.includes Js.startsWith]. rewrite IH.
  destruct (Ascii.eqb_spec c "-"%char) as [->|Hc]; [reflexivity|].
  destruct (Ascii.eqb_spec "-"%char c) as [E|_]; [congruence|].
  destruct (dashesToSpaces s); reflexivity.
Qed.

Lemma endsWith_length (s p : string) :
  Js.endsWith s p = true -> (String.length p <= String.length s)%nat.
Proof.
  induction s as [|c s IH]; cbn [Js.endsWith]; intros H;
    apply orb_true_iff in H; destruct H as [H|H].
  - apply String.eqb_eq in H. subst p. apply Nat.le_refl.
  - discriminate.
  - apply String.eqb_eq in H. subst p. apply Nat.le_refl.
  - specialize (IH H). simpl. lia.
Qed.

Lemma substring_prefix_length (n : nat) (s : string) :
  (n <= String.length s)%nat -> String.length (String.substring 0 n s) = n.
Proof.
  revert s. induction n as [|n IH]; intros s H.
  - destruct s; reflexivity.
  - destruct s as [|c s]; [simpl in H; lia|].
    simpl. rewrite IH; [reflexivity | simpl in H; lia].
Qed.

(** X8: the topic [extractTopic] derives from a file name contains no dash;
    for a name ending in [.md] it is three characters shorter than the name,
    otherwise as long as the name. *)
Theorem extractTopic_shape :
  forall fileName : string,
    Js.includes (extractTopic fileName) "-" = false
    /\ (Js.endsWith fileName ".md" = true ->
        (String.length (extractTopic fileName) + 3
         = String.length fileName)%nat)
    /\ (Js.endsWith fileName ".md" = false ->
        String.length (extractTopic fileName) = String.length fileName).
Proof.
  intros f. unfold extractTopic. split; [apply dashesToSpaces_no_dash|].
  rewrite dashesToSpaces_length. unfold stripMdExtension.
  split; intros H; rewrite H; [|reflexivity].
  pose proof (endsWith_length _ _ H) as L. cbn [String.length] in L.
  rewrite substring_prefix_length by lia. lia.
Qed.

Lemma extractTopic_shape_witness :
  (String.length (extractTopic "react-19-2-features.md") + 3
   = String.length "react-19-2-features.md")%nat.
Proof.
  apply (proj1 (proj2 (extractTopic_shape "react-19-2-features.md"))).
  reflexivity.
Defined.

(** X9: for an existing skill that has no [resources] directory,
    [getSkillResources] succeeds with no recommendation and
    [totalResources] 0. *)
Theorem getSkillResources_no_resources_dir :
  forall (h : Host) (input : Js.Value) (skillsDir : string)
         (data : GetSkillResourcesInput),
    getSkillResourcesInputSchema input = Ok data ->
    existsSync h (pathJoin h skillsDir (inSkillName data)) = true ->
    existsSync h (pathJoin h (pathJoin h skillsDir (inSkillName data))
                           "resources") = false ->
    getSkillResources h input skillsDir = Ok (mkResOutput [] 0).
Proof.
  intros h input skillsDir data Hv He Hr.
  rewrite (getSkillResources_existing h input skillsDir data [] Hv He).
  - reflexivity.
  - apply (proj1 (discoverResources_listing h _ (inSkillName data))), Hr.
Qed.

Lemma getSkillResources_no_resources_dir_witness :
  getSkillResources bareHost frontendQuery "skills" = Ok (mkResOutput [] 0).
Proof.
  apply (getSkillResources_no_resources_dir bareHost frontendQuery "skills"
           (mkResInput "frontend" None None));
    vm_compute; reflexivity.
Defined.

(** X10: for a skill whose directory does not exist, [getSkillResources]
    fails with "Skill not found", and [sanitizeErrorMessage] turns that
    error into the fixed text "get_skill_resources failed: Resource not
    found", whatever the skill name. *)
Theorem getSkillResources_unknown_skill :
  forall (h : Host) (input : Js.Value) (skillsDir : string)
         (data : GetSkillResourcesInput) (now : string),
    getSkillResourcesInputSchema input = Ok data ->
    existsSync h (pathJoin h skillsDir (inSkillName data)) = false ->
    getSkillResources h input skillsDir
    = Err (SkillNotFound (inSkillName data))
    /\ snd (sanitizeErrorMessage "get_skill_resources"
              (skillNotFoundError (inSkillName data)) now)
       = "get_skill_resources failed: Resource not found".
Proof.
  intros h input skillsDir data now Hv He. split.
  - unfold getSkillResources. rewrite Hv, He. reflexivity.
  - unfold sanitizeErrorMessage, skillNotFoundError.
    cbn [snd ctorName errMessage].
    change (String.eqb "Error" "SecurityError") with false. cbv iota.
    assert (I : Js.includes ("Skill not found: " ++ inSkillName data)
                            "not found" = true)
      by (apply includes_app_r; reflexivity).
    rewrite I. reflexivity.
Qed.

Lemma getSkillResources_unknown_skill_witness :
  getSkillResources emptyHost frontendQuery "skills"
  = Err (SkillNotFound "frontend")
  /\ snd (sanitizeErrorMessage "get_skill_resources"
            (skillNotFoundError "frontend") "2025-01-01T00:00:00.000Z")
     = "get_skill_resources failed: Resource not found".
Proof.
  apply (getSkillResources_unknown_skill emptyHost frontendQuery "skills"
           (mkResInput "frontend" None None) "2025-01-01T00:00:00.000Z");
    vm_compute; reflexivity.
Defined.

Lemma getSkillResources_inv (h : Host) (input : Js.Value) (skillsDir : string)
    (out : GetSkillResourcesOutput) :
  getSkillResources h input skillsDir = Ok out ->
  exists data resources,
    getSkillResourcesInputSchema input = Ok data
    /\ discoverResources h (pathJoin h skillsDir (inSkillName data))
                         (inSkillName data) = Ok resources
    /\ out = mkResOutput
               (rankResources (inTopic data) (inKeywords data) resources)
               (Z.of_nat (List.length resources)).
Proof.
  unfold getSkillResources. intros H.
  destruct (getSkillResourcesInputSchema input) as [data|e]; [|discriminate].
  destruct (negb (existsSync h _)); [discriminate|].
  destruct (discoverResources h (pathJoin h skillsDir (inSkillName data))
                              (inSkillName data))
    as [resources|e] eqn:Hd; [|discriminate].
  injection H as <-. exists data, resources.
  split; [reflexivity|]. split; [exact Hd | reflexivity].
Qed.

(** X11: the recommendations of [getSkillResources] are in descending order
    of relevance, and resources of equal relevance keep the order in which
    the directory listed them. *)
Theorem getSkillResources_sorted_stable :
  forall (h : Host) (input : Js.Value) (skillsDir : string)
         (out : GetSkillResourcesOutput),
    getSkillResources h input skillsDir = Ok out ->
    descending relevance (resRecommendations out)
    /\ exists data resources,
         getSkillResourcesInputSchema input = Ok data
         /\ discoverResources h (pathJoin h skillsDir (inSkillName data))
                              (inSkillName data) = Ok resources
         /\ forall c,
              map resource
                  (filter (fun r => relevance r =? c) (resRecommendations out))
              = filter (fun r =>
                          fst (calculateRelevance r (inTopic data)
                                                  (inKeywords data)) =? c)
                       resources.
Proof.
  intros h input skillsDir out H.
  destruct (getSkillResources_inv _ _ _ _ H) as [data [resources [Hv [Hd ->]]]].
  cbn [resRecommendations]. rewrite rankResources_sort. split.
  - apply (sort_descending relevance).
  - exists data, resources. split; [exact Hv|]. split; [exact Hd|].
    intros c. rewrite (sort_stable relevance c), filter_map_comm, map_map.
    rewrite (map_ext _ (fun r => r))
      by (intros r; apply scoreResource_resource).
    rewrite map_id. apply filter_ext. intros r.
    rewrite scoreResource_relevance. reflexivity.
Qed.

Lemma getSkillResources_sorted_stable_witness :
  exists out,
    getSkillResources sampleHost sampleQuery "skills" = Ok out
    /\ descending relevance (resRecommendations out)
    /\ map (fun r => (fileName (resource r), relevance r))
           (resRecommendations out)
       = [("react-19-2-features.md", 90); ("forms-guide.md", 60)].
Proof.
  eexists. split; [vm_compute; reflexivity|]. split.
  - refine (proj1 (getSkillResources_sorted_stable sampleHost sampleQuery
                     "skills" _ _)).
    vm_compute; reflexivity.
  - vm_compute; reflexivity.
Defined.

(** X12: what [getSkillResources] returns fits its output schema: every
    relevance lies between 50 and 100 and [totalResources] is not
    negative and not smaller than the number of recommendations. *)
Theorem getSkillResources_output_bounds :
  forall (h : Host) (input : Js.Value) (skillsDir : string)
         (out : GetSkillResourcesOutput),
    getSkillResources h input skillsDir = Ok out ->
    Forall (fun r => 50 <= relevance r <= 100) (resRecommendations out)
    /\ 0 <= Z.of_nat (List.length (resRecommendations out))
       <= totalResources out.
Proof.
  intros h input skillsDir out H.
  destruct (getSkillResources_inv _ _ _ _ H) as [data [resources [_ [_ ->]]]].
  cbn [resRecommendations totalResources]. rewrite rankResources_sort. split.
  - apply (sort_Forall relevance), Forall_map, Forall_forall.
    intros r _. rewrite scoreResource_relevance.
    apply calculateRelevance_base.
  - rewrite (sort_length relevance), length_map. lia.
Qed.

Lemma getSkillResources_output_bounds_witness :
  exists out,
    getSkillResources sampleHost plainQuery "skills" = Ok out
    /\ Forall (fun r => 50 <= relevance r <= 100) (resRecommendations out).
Proof.
  eexists. split; [vm_compute; reflexivity|].
  refine (proj1 (getSkillResources_output_bounds sampleHost plainQuery
                   "skills" _ _)).
  vm_compute; reflexivity.
Defined.

Lemma keywordLoop_inv (nt : string) (keywords : list string)
    (acc : Z * list string) :
  50 <= fst acc /\ (fst acc = 50 <-> snd acc = []) ->
  50 <= fst (keywordLoop nt keywords acc)
  /\ (fst (keywordLoop nt keywords acc) = 50
      <-> snd (keywordLoop nt keywords acc) = []).
Proof.
  revert acc. induction keywords as [|k ks IH]; intros acc H; [exact H|].
  cbn [keywordLoop]. apply IH.
  destruct (Js.includes nt (Js.toLowerCase k)); [|exact H].
  cbn [fst snd]. destruct H as [H1 _]. split; [lia|]. split.
  - lia.
  - intros E. apply app_eq_nil in E. destruct E as [_ E]. discriminate E.
Qed.

(** X13: score and explanation of [calculateRelevance] agree: the relevance
    is the base 50 exactly when the reasoning is "General resource for this
    skill", that is, when no topic or keyword matched. *)
Theorem calculateRelevance_reasoning_consistent :
  forall (r : ResourceFile) (queryTopic : option string)
         (keywords : option (list string)),
    fst (calculateRelevance r queryTopic keywords) = 50
    <-> snd (calculateRelevance r queryTopic keywords)
        = "General resource for this skill".
Proof.
  intros r qt k. unfold calculateRelevance. cbn [fst snd].
  set (at_ := match truthy qt with
              | Some t => _
              | None => _
              end).
  assert (I0 : 50 <= fst at_ /\ (fst at_ = 50 <-> snd at_ = [])).
  { subst at_. destruct (truthy qt) as [t|].
    - destruct (Js.includes _ _); cbn [fst snd].
      + split; [lia|]. split; [lia | discriminate].
      + split; [lia|]. split; reflexivity.
    - cbn [fst snd]. split; [lia|]. split; reflexivity. }
  set (ak := match k with
             | Some (k0 :: ks) => _
             | _ => _
             end).
  assert (I : 50 <= fst ak /\ (fst ak = 50 <-> snd ak = [])).
  { subst ak. destruct k as [[|k0 ks]|]; try exact I0.
    apply keywordLoop_inv, I0. }
  destruct I as [I1 I2].
  destruct (snd ak) as [|x l] eqn:E; cbn [List.length].
  - change (0 <? Z.of_nat 0) with false. cbv iota.
    split; [reflexivity|]. intros _.
    rewrite (proj2 I2 eq_refl). reflexivity.
  - replace (0 <? Z.of_nat (S (List.length l))) with true
      by (symmetry; apply Z.ltb_lt; lia).
    split.
    + intros M. assert (fst ak = 50) by lia.
      apply I2 in H. discriminate H.
    + intros M. discriminate M.
Qed.

(** X14: supplying more keywords never lowers the relevance
    [calculateRelevance] gives a resource. *)
Theorem calculateRelevance_keywords_monotone :
  forall (r : ResourceFile) (queryTopic : option string)
         (keywords extra : list string),
    fst (calculateRelevance r queryTopic (Some keywords))
    <= fst (calculateRelevance r queryTopic (Some (List.app keywords extra))).
Proof.
  intros r qt ks extra. rewrite !calculateRelevance_fst.
  cbn [keywordsOf]. rewrite filter_app, length_app. lia.
Qed.

(* ================================================================== *)
(** * Further properties of input validation *)

Lemma trimEnd_cons (c : ascii) (s : string) :
  Js.isWhiteSpace c = false ->
  Js.trimEnd (String c s) = String c (Js.trimEnd s).
Proof.
  intros H. cbn [Js.trimEnd]. rewrite H.
  destruct (Js.trimEnd s); reflexivity.
Qed.

Lemma trimEnd_idem (s : string) : Js.trimEnd (Js.trimEnd s) = Js.trimEnd s.
Proof.
  induction s as [|c s IH]; [reflexivity|].
  cbn [Js.trimEnd]. destruct (Js.trimEnd s) as [|d r] eqn:E.
  - destruct (Js.isWhiteSpace c) eqn:W; [reflexivity|].
    cbn [Js.trimEnd]. rewrite W. reflexivity.
  - change (Js.trimEnd (String c (String d r)))
      with (match Js.trimEnd (String d r) with
            | EmptyString =>
                if Js.isWhiteSpace c then EmptyString else String c EmptyString
            | String a b => String c (String a b)
            end).
    rewrite IH. reflexivity.
Qed.

Lemma trimStart_head (s : string) :
  Js.trimStart s = ""
  \/ exists c r, Js.trimStart s = String c r /\ Js.isWhiteSpace c = false.
Proof.
  induction s as [|c s IH]; [left; reflexivity|].
  cbn [Js.trimStart]. destruct (Js.isWhiteSpace c) eqn:W; [exact IH|].
  right. exists c, s. split; [reflexivity | exact W].
Qed.

Lemma trim_idem (s : string) : Js.trim (Js.trim s) = Js.trim s.
Proof.
  unfold Js.trim.
  destruct (trimStart_head s) as [->|[c [r [-> W]]]]; [reflexivity|].
  rewrite (trimEnd_cons c r W). cbn [Js.trimStart]. rewrite W.
  rewrite <- (trimEnd_cons c r W). apply trimEnd_idem.
Qed.

(** X15: a prompt accepted by [suggestAgentInputSchema] is the trimmed
    form of the string supplied under [prompt]; it has between 1 and 10000
    characters and no white space (no-break space included) at either
    end. *)
Theorem suggestAgentInputSchema_normal_form :
  forall (input : Js.Value) (prompt : string),
    suggestAgentInputSchema input = Ok prompt ->
    1 <= Js.len prompt <= 10000
    /\ Js.trim prompt = prompt
    /\ exists raw, promptOf input = Some raw /\ prompt = Js.trim raw.
Proof.
  intros input prompt. unfold suggestAgentInputSchema, promptOf, parsePrompt.
  destruct input as [| | | | | |fields]; try discriminate.
  destruct (Js.getField fields "prompt") as [| | | |s| |]; try discriminate.
  destruct (Z.ltb_spec (Js.len (Js.trim s)) 1) as [|L1]; [discriminate|].
  destruct (Z.ltb_spec 10000 (Js.len (Js.trim s))) as [|L2]; [discriminate|].
  intros H. injection H as <-.
  split; [lia|]. split; [apply trim_idem|].
  exists s. split; reflexivity.
Qed.

Lemma suggestAgentInputSchema_normal_form_witness :
  1 <= Js.len "audit this" <= 10000 /\ Js.trim "audit this" = "audit this".
Proof.
  destruct (suggestAgentInputSchema_normal_form
              (promptInput "  audit this  ") "audit this" eq_refl)
    as [H1 [H2 _]].
  split; [exact H1 | exact H2].
Defined.

(** X16: input accepted by [getSkillResourcesInputSchema] carries a skill
    name that is not empty and has no white space (no-break space included)
    at either end, and a topic, if any, without white space at either
    end. *)
Theorem getSkillResourcesInputSchema_normal_form :
  forall (input : Js.Value) (data : GetSkillResourcesInput),
    getSkillResourcesInputSchema input = Ok data ->
    inSkillName data <> ""
    /\ Js.trim (inSkillName data) = inSkillName data
    /\ match inTopic data with
       | Some t => Js.trim t = t
       | None => True
       end.
Proof.
  intros input data. unfold getSkillResourcesInputSchema.
  destruct input as [| | | | | |fields]; try discriminate.
  destruct (Js.getField fields "skillName") as [| | | |s| |]; try discriminate.
  destruct (Z.ltb_spec (Js.len (Js.trim s)) 1) as [|L]; [discriminate|].
  unfold parseOptString.
  destruct (Js.getField fields "topic") as [| | | |t| |]; try discriminate;
    destruct (parseOptStrings "keywords" (Js.getField fields "keywords"))
      as [k|e]; try discriminate;
    intros H; injection H as <-; cbn [inSkillName inTopic];
    (split; [intros E; rewrite E in L; cbn in L; lia|]);
    (split; [apply trim_idem|]); try exact I.
  apply trim_idem.
Qed.

Lemma getSkillResourcesInputSchema_normal_form_witness :
  inSkillName (mkResInput "frontend" (Some "React 19") (Some ["guide"])) <> "".
Proof.
  apply (getSkillResourcesInputSchema_normal_form sampleQuery).
  vm_compute; reflexivity.
Defined.

(* ================================================================== *)
(** * Further properties of skill discovery *)



Lemma includes_char (c a : ascii) (s : string) :
  Js.includes (String c s) (String a EmptyString)
  = (Ascii.eqb a c || Js.includes s (String a EmptyString))%bool.
Proof.
  cbn [Js.includes Js.startsWith]. rewrite startsWith_empty, andb_true_r.
  reflexivity.
Qed.

Lemma split_nonempty (sep : ascii) (s : string) : split sep s <> [].
Proof.
  destruct s as [|c s]; cbn [split]; [discriminate|].
  destruct (Ascii.eqb c sep); [discriminate|].
  destruct (split sep s); discriminate.
Qed.

Lemma split_no_separator (sep : ascii) (s : string) :
  Forall (fun p => Js.includes p (String sep EmptyString) = false)
         (split sep s).
Proof.
  induction s as [|c s IH]; cbn [split].
  - constructor; [reflexivity | constructor].
  - destruct (Ascii.eqb_spec c sep) as [E|N].
    + constructor; [reflexivity | exact IH].
    + destruct (split sep s) as [|h t] eqn:S;
        [exfalso; exact (split_nonempty sep s S)|].
      inversion IH as [|? ? Hh Ht]; subst.
      constructor; [|exact Ht].
      rewrite includes_char, Hh.
      destruct (Ascii.eqb_spec sep c) as [E|_]; [congruence | reflexivity].
Qed.

Lemma trimStart_no_char (a : ascii) (s : string) :
  Js.includes s (String a EmptyString) = false ->
  Js.includes (Js.trimStart s) (String a EmptyString) = false.
Proof.
  induction s as [|c s IH]; intros H; [exact H|].
  cbn [Js.trimStart]. destruct (Js.isWhiteSpace c); [|exact H].
  apply IH. rewrite includes_char in H.
  apply orb_false_iff in H. apply H.
Qed.

Lemma trimEnd_no_char (a : ascii) (s : string) :
  Js.includes s (String a EmptyString) = false ->
  Js.includes (Js.trimEnd s) (String a EmptyString) = false.
Proof.
  induction s as [|c s IH]; intros H; [exact H|].
  rewrite includes_char in H. apply orb_false_iff in H.
  destruct H as [Hc Hs]. specialize (IH Hs).
  cbn [Js.trimEnd]. destruct (Js.trimEnd s) as [|d r].
  - destruct (Js.isWhiteSpace c); [reflexivity|].
    rewrite includes_char, Hc. reflexivity.
  - rewrite includes_char, Hc, IH. reflexivity.
Qed.

Lemma lowerChar_comma (c : ascii) :
  Ascii.eqb ","%char (Js.lowerChar c) = Ascii.eqb ","%char c.
Proof. destruct c as [[] [] [] [] [] [] [] []]; reflexivity. Qed.

Lemma toLowerCase_no_comma (s : string) :
  Js.includes s "," = false -> Js.includes (Js.toLowerCase s) "," = false.
Proof.
  induction s as [|c s IH]; intros H; [exact H|].
  cbn [Js.toLowerCase]. rewrite includes_char in *.
  apply orb_false_iff in H. destruct H as [Hc Hs].
  rewrite lowerChar_comma, Hc, (IH Hs). reflexivity.
Qed.

(** X18: for every content, each keyword [extractKeywords] returns is
    non-empty, in lower case, free of white space at both ends and free of
    commas. *)
Theorem extractKeywords_normalized :
  forall content : string,
    Forall (fun k =>
              k <> ""
              /\ Js.toLowerCase k = k
              /\ Js.trim k = k
              /\ Js.includes k "," = false)
           (extractKeywords content).
Proof.
  intros content. unfold extractKeywords.
  destruct (truthy (matchKeywords (removeFrontmatter content))) as [str|];
    [|constructor].
  apply Forall_forall. intros k Hk.
  apply filter_In in Hk. destruct Hk as [Hk Hl].
  apply in_map_iff in Hk. destruct Hk as [piece [<- Hp]].
  split; [|split; [|split]].
  - intros E. rewrite E in Hl. discriminate Hl.
  - apply toLowerCase_idem.
  - rewrite <- trim_lower, trim_idem. reflexivity.
  - apply toLowerCase_no_comma. unfold Js.trim.
    apply trimEnd_no_char, trimStart_no_char.
    pose proof (split_no_separator ","%char str) as F.
    rewrite Forall_forall in F. apply F, Hp.
Qed.

Lemma nonEmptyStrings_In (items : list Js.Value) (p : string) :
  In p (nonEmptyStrings items) -> p <> "" /\ In (Js.VStr p) items.
Proof.
  induction items as [|v items IH]; [intros []|].
  destruct v as [| | | |s| |]; cbn [nonEmptyStrings];
    try (intros H; destruct (IH H) as [H1 H2];
         split; [exact H1 | right; exact H2]).
  destruct (0 <? Js.len s) eqn:L.
  - intros [<-|H].
    + split; [intros E; rewrite E in L; discriminate L | left; reflexivity].
    + destruct (IH H) as [H1 H2]. split; [exact H1 | right; exact H2].
  - intros H. destruct (IH H) as [H1 H2]. split; [exact H1 | right; exact H2].
Qed.

(** X19: every pattern [extractFilePatterns] returns is a non-empty string
    listed in the array [triggers.files.include] of the frontmatter;
    without such an array nothing is returned. *)
Theorem extractFilePatterns_sound :
  forall (frontmatter : Js.Value) (p : string),
    In p (extractFilePatterns frontmatter) ->
    p <> ""
    /\ exists items,
         getProp (getProp (getProp frontmatter "triggers") "files") "include"
         = Js.VArr items
         /\ In (Js.VStr p) items.
Proof.
  intros fm p. unfold extractFilePatterns.
  assert (G : In p
                (if negb (jsTruthy (getProp fm "triggers")) then []
                 else if negb (jsTruthy (getProp (getProp fm "triggers")
                                                 "files")) then []
                 else match getProp (getProp (getProp fm "triggers") "files")
                                    "include" with
                      | Js.VArr items => nonEmptyStrings items
                      | _ => []
                      end) ->
              p <> ""
              /\ exists items,
                   getProp (getProp (getProp fm "triggers") "files") "include"
                   = Js.VArr items
                   /\ In (Js.VStr p) items).
  { destruct (negb (jsTruthy (getProp fm "triggers"))); [intros []|].
    destruct (negb (jsTruthy (getProp (getProp fm "triggers") "files")));
      [intros []|].
    destruct (getProp (getProp (getProp fm "triggers") "files") "include")
      as [| | | | |items|]; try (intros []).
    intros H. destruct (nonEmptyStrings_In items p H) as [H1 H2].
    split; [exact H1|]. exists items. split; [reflexivity | exact H2]. }
  destruct fm; try exact G; intros [].
Qed.

Lemma extractFilePatterns_sound_witness :
  "convex/**/*.ts" <> ""
  /\ exists items,
       getProp (getProp (getProp sampleFrontmatter "triggers") "files")
               "include" = Js.VArr items
       /\ In (Js.VStr "convex/**/*.ts") items.
Proof.
  apply (extractFilePatterns_sound sampleFrontmatter "convex/**/*.ts").
  left; reflexivity.
Defined.

(* ================================================================== *)
(** * Further properties of the session tracker *)

Section TrackerFacts.
Import Session.
Variable th : Thresholds.

Lemma reaches_mono (t : Threshold) (a b : SessionTracker) :
  commitsSinceCheckpoint a <= commitsSinceCheckpoint b ->
  (List.length (filesModified a) <= List.length (filesModified b))%nat ->
  reaches t a = true -> reaches t b = true.
Proof.
  unfold reaches. intros Hc Hf H.
  apply orb_true_iff in H. apply orb_true_iff.
  destruct H as [H|H]; apply Z.leb_le in H; [left|right]; apply Z.leb_le; lia.
Qed.

(** The status grows with the three counters it reads. *)
Lemma calculateCheckpointStatus_mono (a b : SessionTracker) :
  commitsSinceCheckpoint a <= commitsSinceCheckpoint b ->
  (List.length (filesModified a) <= List.length (filesModified b))%nat ->
  (List.length (completedSinceCheckpoint a)
   <= List.length (completedSinceCheckpoint b))%nat ->
  rank (calculateCheckpointStatus th a) <= rank (calculateCheckpointStatus th b).
Proof.
  intros Hc Hf Hw. unfold calculateCheckpointStatus.
  pose proof (reaches_mono (URGENT th) a b Hc Hf) as U.
  pose proof (reaches_mono (RECOMMENDED th) a b Hc Hf) as R.
  pose proof (reaches_mono (SUGGESTED th) a b Hc Hf) as S.
  destruct (reaches (URGENT th) a);
    [rewrite (U eq_refl); cbn; lia|].
  destruct (reaches (URGENT th) b); [destruct (reaches (RECOMMENDED th) a);
    [|destruct (_ || _)%bool]; cbn; lia|].
  destruct (reaches (RECOMMENDED th) a);
    [rewrite (R eq_refl); cbn; lia|].
  destruct (reaches (RECOMMENDED th) b);
    [destruct (_ || _)%bool; cbn; lia|].
  destruct (reaches (SUGGESTED th) a);
    [rewrite (S eq_refl); cbn; lia|].
  cbn [orb].
  destruct (0 <? Z.of_nat (List.length (completedSinceCheckpoint a))) eqn:W.
  - apply Z.ltb_lt in W.
    replace (0 <? Z.of_nat (List.length (completedSinceCheckpoint b)))
      with true by (symmetry; apply Z.ltb_lt; lia).
    rewrite orb_true_r. cbn; lia.
  - destruct (_ || _)%bool; cbn; lia.
Qed.

Ltac update_cases data :=
  unfold applyUpdate;
  destruct (truthy (upCurrentPhase data)), (truthy (upCompletedWork data)),
    (truthy (upInProgress data)), (upFilesModified data) as [[|?f ?fs]|],
    (upCommitMade data) as [[|]|], (truthy (upLastCommit data));
  lazy beta iota delta
       [commitsSinceCheckpoint filesModified completedSinceCheckpoint
        withCheckpointStatus withLastCommit withCommits withFilesModified
        withInProgress withCompleted withCurrentPhase].

Lemma applyUpdate_commits (data : UpdateInput) (t : SessionTracker) :
  commitsSinceCheckpoint (applyUpdate th data t)
  = commitsSinceCheckpoint t
    + match upCommitMade data with
      | Some true => 1
      | _ => 0
      end.
Proof. update_cases data; lia. Qed.

Lemma applyUpdate_files (data : UpdateInput) (t : SessionTracker) :
  filesModified (applyUpdate th data t)
  = List.app (filesModified t)
             (filter (fun x => negb (Js.arrayIncludes (filesModified t) x))
                     (updateFiles data)).
Proof.
  unfold updateFiles. update_cases data;
    cbn [filter]; rewrite ?app_nil_r; reflexivity.
Qed.

Lemma applyUpdate_completed (data : UpdateInput) (t : SessionTracker) :
  completedSinceCheckpoint (applyUpdate th data t)
  = List.app (completedSinceCheckpoint t)
             match truthy (upCompletedWork data) with
             | Some work => [work]
             | None => []
             end.
Proof. update_cases data; rewrite ?app_nil_r; reflexivity. Qed.

Lemma calculateCheckpointStatus_ext (a b : SessionTracker) :
  commitsSinceCheckpoint a = commitsSinceCheckpoint b ->
  filesModified a = filesModified b ->
  completedSinceCheckpoint a = completedSinceCheckpoint b ->
  calculateCheckpointStatus th a = calculateCheckpointStatus th b.
Proof.
  intros Hc Hf Hw. unfold calculateCheckpointStatus, reaches.
  rewrite Hc, Hf, Hw. reflexivity.
Qed.

Lemma applyUpdate_status (data : UpdateInput) (t : SessionTracker) :
  checkpointStatus (applyUpdate th data t)
  = calculateCheckpointStatus th (applyUpdate th data t).
Proof.
  unfold applyUpdate at 1. cbv zeta. unfold withCheckpointStatus at 1.
  cbn [checkpointStatus].
  apply calculateCheckpointStatus_ext; reflexivity.
Qed.
End TrackerFacts.

Lemma arrayIncludes_In (l : list string) (s : string) :
  Js.arrayIncludes l s = true <-> In s l.
Proof.
  unfold Js.arrayIncludes. rewrite existsb_exists. split.
  - intros [x [Hx E]]. apply String.eqb_eq in E. subst x. exact Hx.
  - intros H. exists s. split; [exact H | apply String.eqb_refl].
Qed.

(** X20: an update never lowers the checkpoint status: whatever the
    thresholds, the status stored by [updateSessionTracker]'s field updates
    is at least as severe as the status of the tracker before them. *)
Theorem applyUpdate_status_monotone :
  forall (th : Session.Thresholds) (data : Session.UpdateInput)
         (t : Session.SessionTracker),
    Session.rank (Session.calculateCheckpointStatus th t)
    <= Session.rank
         (Session.checkpointStatus (Session.applyUpdate th data t)).
Proof.
  intros th data t. rewrite applyUpdate_status.
  apply calculateCheckpointStatus_mono.
  - rewrite applyUpdate_commits.
    destruct (Session.upCommitMade data) as [[|]|]; lia.
  - rewrite applyUpdate_files, length_app. lia.
  - rewrite applyUpdate_completed, length_app. lia.
Qed.

(** X21: the files an update names are all tracked afterwards, files
    tracked before stay, nothing else is added, and if neither the tracked
    list nor the update repeats a file, the new list repeats none. *)
Theorem applyUpdate_files_tracked :
  forall (th : Session.Thresholds) (data : Session.UpdateInput)
         (t : Session.SessionTracker),
    (forall f,
        In f (Session.filesModified (Session.applyUpdate th data t))
        <-> In f (Session.filesModified t) \/ In f (updateFiles data))
    /\ (NoDup (Session.filesModified t) ->
        NoDup (updateFiles data) ->
        NoDup (Session.filesModified (Session.applyUpdate th data t))).
Proof.
  intros th data t. rewrite applyUpdate_files. split.
  - intros f. rewrite in_app_iff, filter_In. split.
    + intros [H|[H _]]; [left | right]; exact H.
    + intros [H|H]; [left; exact H|].
      destruct (Js.arrayIncludes (Session.filesModified t) f) eqn:E.
      * left. apply arrayIncludes_In, E.
      * right. split; [exact H | reflexivity].
  - intros Ht Hu. apply NoDup_app; [exact Ht | apply NoDup_filter, Hu|].
    intros f Hf Hn. apply filter_In in Hn. destruct Hn as [_ Hn].
    apply (proj2 (arrayIncludes_In _ _)) in Hf. rewrite Hf in Hn.
    discriminate Hn.
Qed.

Lemma applyUpdate_files_tracked_witness :
  NoDup (Session.filesModified
           (Session.applyUpdate commentThresholds sampleUpdate busyTracker))
  /\ Session.filesModified
       (Session.applyUpdate commentThresholds sampleUpdate busyTracker)
     = ["convex/users.ts"; "convex/schema.ts"; "convex/posts.ts"].
Proof.
  split; [|vm_compute; reflexivity].
  apply (proj2 (applyUpdate_files_tracked commentThresholds sampleUpdate
                                          busyTracker)).
  - repeat constructor; cbn [In]; intros H;
      repeat (destruct H as [H|H]; [discriminate H|]); exact H.
  - repeat constructor; cbn [In]; intros H;
      repeat (destruct H as [H|H]; [discriminate H|]); exact H.
Defined.

(** X22: after [resetCheckpoint], with thresholds that each ask for at
    least one commit and one file, the tracker's status is [none],
    [calculateCheckpointStatus] agrees with it and [shouldCreateCheckpoint]
    does not ask to save; session start, phase, task in progress and last
    commit are kept. *)
Theorem resetCheckpoint_clears_status :
  forall (th : Session.Thresholds) (t : Session.SessionTracker)
         (now : string) (startMs nowMs : Z),
    positiveThresholds th ->
    Session.checkpointStatus (Session.resetCheckpoint t now)
    = Session.StatusNone
    /\ Session.calculateCheckpointStatus th (Session.resetCheckpoint t now)
       = Session.StatusNone
    /\ Session.shouldSave
         (Session.shouldCreateCheckpoint th (Session.resetCheckpoint t now)
                                         startMs nowMs) = false
    /\ Session.sessionStart (Session.resetCheckpoint t now)
       = Session.sessionStart t
    /\ Session.currentPhase (Session.resetCheckpoint t now)
       = Session.currentPhase t
    /\ Session.inProgress (Session.resetCheckpoint t now)
       = Session.inProgress t
    /\ Session.lastCommit (Session.resetCheckpoint t now)
       = Session.lastCommit t.
Proof.
  intros th t now startMs nowMs (U1 & U2 & R1 & R2 & S1 & S2).
  assert (E : Session.calculateCheckpointStatus th
                (Session.resetCheckpoint t now) = Session.StatusNone).
  { unfold Session.calculateCheckpointStatus, Session.reaches,
      Session.resetCheckpoint.
    cbn [Session.commitsSinceCheckpoint Session.filesModified
         Session.completedSinceCheckpoint List.length].
    change (Z.of_nat 0) with 0.
    repeat match goal with
           | |- context [?a <=? 0] =>
               replace (a <=? 0) with false
                 by (symmetry; apply Z.leb_gt; assumption)
           end.
    reflexivity. }
  repeat split; try reflexivity; try exact E.
  unfold Session.shouldCreateCheckpoint. cbn [Session.shouldSave].
  rewrite E. reflexivity.
Qed.

Lemma resetCheckpoint_clears_status_witness :
  positiveThresholds commentThresholds
  /\ Session.calculateCheckpointStatus commentThresholds
       (Session.resetCheckpoint busyTracker "2025-01-01T12:00:00.000Z")
     = Session.StatusNone.
Proof.
  assert (P : positiveThresholds commentThresholds)
    by (unfold positiveThresholds; cbn; lia).
  split; [exact P|].
  exact (proj1 (proj2 (resetCheckpoint_clears_status commentThresholds
                         busyTracker "2025-01-01T12:00:00.000Z" 0 0 P))).
Defined.

(** X23: [updateSessionTracker] saves nothing when validation or loading
    fails; otherwise the tracker it hands to [saveSessionTracker] stores the
    status [calculateCheckpointStatus] gives for that very tracker, and on
    success this is the status it returns. *)
Theorem updateSessionTracker_status_consistent :
  forall (th : Session.Thresholds)
         (validation : Result Session.UpdateInput)
         (loadResult : Result Session.SessionTracker)
         (save : Session.SessionTracker -> Result unit),
    (ok validation = false \/ ok loadResult = false ->
     snd (Session.updateSessionTracker th validation loadResult save) = None
     /\ ok (fst (Session.updateSessionTracker th validation loadResult save))
        = false)
    /\ (forall saved,
           snd (Session.updateSessionTracker th validation loadResult save)
           = Some saved ->
           Session.checkpointStatus saved
           = Session.calculateCheckpointStatus th saved)
    /\ (forall message st,
           fst (Session.updateSessionTracker th validation loadResult save)
           = Ok (message, st) ->
           exists saved,
             snd (Session.updateSessionTracker th validation loadResult save)
             = Some saved
             /\ Session.checkpointStatus saved = st).
Proof.
  intros th validation loadResult save.
  unfold Session.updateSessionTracker.
  destruct validation as [data|e1]; [destruct loadResult as [t|e2]|].
  - split; [intros [H|H]; discriminate H|].
    destruct (save (Session.applyUpdate th data t)) as [u|e3]; cbn [fst snd].
    + split.
      * intros saved H. injection H as <-. apply applyUpdate_status.
      * intros message st H. injection H as _ <-.
        eexists. split; reflexivity.
    + split.
      * intros saved H. injection H as <-. apply applyUpdate_status.
      * intros message st H. discriminate H.
  - cbn [fst snd]. split; [intros _; split; reflexivity|].
    split; [intros saved H; discriminate H | intros m st H; discriminate H].
  - cbn [fst snd]. split; [intros _; split; reflexivity|].
    split; [intros saved H; discriminate H | intros m st H; discriminate H].
Qed.

Lemma updateSessionTracker_status_consistent_witness :
  snd (Session.updateSessionTracker commentThresholds
         (Err (InvalidInput (invalid_type "commitMade"))) (Ok busyTracker)
         (fun _ => Ok tt)) = None
  /\ ok (fst (Session.updateSessionTracker commentThresholds
                (Err (InvalidInput (invalid_type "commitMade")))
                (Ok busyTracker) (fun _ => Ok tt))) = false.
Proof.
  apply (proj1 (updateSessionTracker_status_consistent commentThresholds
                  (Err (InvalidInput (invalid_type "commitMade")))
                  (Ok busyTracker) (fun _ => Ok tt))).
  left; reflexivity.
Defined.

(** X24: for a session start not later than now, the duration text of
    [calculateSessionDuration] shows the elapsed whole minutes split into
    hours and fewer than 60 minutes, the hours being left out when zero. *)
Theorem calculateSessionDuration_split :
  forall startMs nowMs : Z,
    startMs <= nowMs ->
    exists h m,
      0 <= h /\ 0 <= m < 60
      /\ (nowMs - startMs) / 60000 = 60 * h + m
      /\ Session.calculateSessionDuration startMs nowMs
         = if 0 <? h
           then (Session.numberToString h ++ "h "
                 ++ Session.numberToString m ++ "m")%string
           else (Session.numberToString m ++ "m")%string.
Proof.
  intros startMs nowMs H. unfold Session.calculateSessionDuration.
  change (1000 * 60 * 60) with 3600000. change (1000 * 60) with 60000.
  set (d := nowMs - startMs). assert (Hd : 0 <= d) by (subst d; lia).
  rewrite Z.rem_mod_nonneg by lia.
  exists (d / 3600000), (d mod 3600000 / 60000).
  split; [apply Z.div_pos; lia|].
  split; [|split; [|reflexivity]].
  - pose proof (Z.mod_pos_bound d 3600000 ltac:(lia)) as B.
    split; [apply Z.div_pos; lia|].
    apply Z.div_lt_upper_bound; lia.
  - pose proof (Z.div_mod d 3600000 ltac:(lia)) as E.
    pose proof (Z.mod_pos_bound d 3600000 ltac:(lia)) as B.
    rewrite E at 1.
    replace (3600000 * (d / 3600000) + d mod 3600000)
      with (d mod 3600000 + (60 * (d / 3600000)) * 60000) by lia.
    rewrite Z.div_add by lia. lia.
Qed.

Lemma calculateSessionDuration_split_witness :
  Session.calculateSessionDuration 1000 (1000 + 2 * 3600000 + 5 * 60000 + 59)
  = "2h 5m".
Proof.
  destruct (calculateSessionDuration_split
              1000 (1000 + 2 * 3600000 + 5 * 60000 + 59))
    as [h [m [Hh [Hm [Hs E]]]]]; [lia|].
  change ((1000 + 2 * 3600000 + 5 * 60000 + 59 - 1000) / 60000)
    with 125 in Hs.
  assert (h = 2) by lia. assert (m = 5) by lia. subst h m.
  rewrite E. reflexivity.
Defined.
